(** * Verification of the DogStatsD topology sizer, the pod check stub and the
      Windows container provider of the Datadog agent.

    The Go sources are embedded shallowly: a Go [int] is a [Z] with the
    64-bit two's-complement wrap-around written out, a [uint64] is a [Z]
    reduced modulo [2^64], a Go [map] is a [gmap], a pointer or slice that may
    be [nil] is an [option], and an [error] is an [option] of its message.
    Logging is kept as an explicit trace of log entries. *)

From Stdlib Require Import ZArith Lia Floats.SpecFloat.
From stdpp Require Import gmap strings list fin_maps.

Local Open Scope string_scope.
Local Open Scope list_scope.
Local Open Scope Z_scope.

(** ** Go machine integers *)
Module GoInt.

(** [int] is 64 bits wide on the platforms the agent is built for. *)
Definition min_int : Z := - 2 ^ 63.
Definition max_int : Z := 2 ^ 63 - 1.
Definition max_uint64 : Z := 2 ^ 64 - 1.

Definition is_int (z : Z) : Prop := min_int ≤ z ≤ max_int.
Definition is_uint64 (z : Z) : Prop := 0 ≤ z ≤ max_uint64.

(** Two's-complement reduction of a mathematical integer to an [int]. *)
Definition int_wrap (z : Z) : Z := (z + 2 ^ 63) `mod` 2 ^ 64 - 2 ^ 63.

(** Reduction of a mathematical integer to a [uint64]. *)
Definition uint64_wrap (z : Z) : Z := z `mod` 2 ^ 64.

Definition int_sub (a b : Z) : Z := int_wrap (a - b).
(** Go's [/] on integers truncates toward zero. *)
Definition int_div (a b : Z) : Z := int_wrap (a `quot` b).

Definition uint64_sub (a b : Z) : Z := uint64_wrap (a - b).
Definition uint64_div (a b : Z) : Z := uint64_wrap (a `div` b).

End GoInt.

(** ** Errors and the log trace *)
Module Go.

(** The value built by [fmt.Errorf] with a constant format: an error that
    carries only its message. *)
Record error_value := Errorf { Error : string }.

(** A Go [error]: [None] is [nil]. *)
Definition error := option error_value.

(** The dynamic type of an error value: the generic [*errors.errorString]
    that [errors.New] builds, or a type declared for one kind of error. *)
Inductive error_type :=
| errorString
| declared_type (name : string).

(** [fmt.Errorf] with a format without [%w] returns what [errors.New] builds:
    its dynamic type is [*errors.errorString], whatever the message. *)
Definition dynamic_type (e : error_value) : error_type :=
  match e with
  | Errorf _ => errorString
  end.

(** An error is typed when its dynamic type is one declared for its kind, so
    that a caller can tell it from other errors without reading its text. *)
Definition typed (e : error) : Prop :=
  ∃ (ev : error_value) (name : string),
    e = Some ev ∧ dynamic_type ev = declared_type name.

(** The line feed that ends some log formats. *)
Definition newline : string := String (Ascii.ascii_of_nat 10) "".

Inductive level := Debug | Info | Warn.

Inductive arg :=
| AStr (s : string)
| AInt (z : Z)
| AErr (e : error).

(** One call of the [log] package: its level, format string and arguments. *)
Record entry := Log { lvl : level; format : string; args : list arg }.

Definition trace := list entry.

(** A computation that logs: its value and the entries it emitted. *)
Definition Logged (A : Type) : Type := A * trace.

Definition ret {A} (a : A) : Logged A := (a, []).

Definition bind {A B} (m : Logged A) (k : A → Logged B) : Logged B :=
  let '(a, t1) := m in
  let '(b, t2) := k a in
  (b, t1 ++ t2).

Definition log (l : level) (fmt : string) (a : list arg) : Logged unit :=
  (tt, [Log l fmt a]).

(** [for _, x := range xs] with a logging body that threads a state. *)
Fixpoint for_range {A St} (body : A → St → Logged St) (xs : list A) (st : St)
  : Logged St :=
  match xs with
  | [] => ret st
  | x :: xs' => bind (body x st) (for_range body xs')
  end.

End Go.

Notation "'do' x <- m ; k" := (Go.bind m (λ x, k))
  (at level 10, x name, m at level 100, k at level 200).
Notation "'do_' m ; k" := (Go.bind m (λ _, k))
  (at level 10, m at level 100, k at level 200).

(** ** pkg/aggregator: the demultiplexer helpers *)
Module Aggregator.
Import GoInt Go.

(** The two accessors of [config.Datadog] that the sizer reads. *)
Record Config := {
  GetBool : string → bool;
  GetInt : string → Z
}.

(** [getDogStatsDWorkerAndPipelineCount]: the pair
    [(dsdWorkerCount, pipelineCount)] and the log entries emitted. *)
Definition getDogStatsDWorkerAndPipelineCount (cfg : Config) (vCPUs : Z)
  : (Z * Z) * trace :=
  let autoAdjust := GetBool cfg "dogstatsd_pipeline_autoadjust" in
  if negb autoAdjust then
    let pipelineCount := GetInt cfg "dogstatsd_pipeline_count" in
    let pipelineCount := if pipelineCount <=? 0 then 1 else pipelineCount in
    let dsdWorkerCount := int_sub (int_sub vCPUs 1) pipelineCount in
    let dsdWorkerCount := if dsdWorkerCount <? 2 then 2 else dsdWorkerCount in
    ((dsdWorkerCount, pipelineCount), [])
  else
    let dsdWorkerCount := int_div vCPUs 2 in
    let dsdWorkerCount := if dsdWorkerCount <? 2 then 2 else dsdWorkerCount in
    let pipelineCount := int_sub dsdWorkerCount 1 in
    let pipelineCount := if pipelineCount <=? 0 then 1 else pipelineCount in
    let warnings :=
      if 1 <? GetInt cfg "dogstatsd_pipeline_count" then
        [Log Warn
           "DogStatsD pipeline count value ignored since 'dogstatsd_pipeline_autoadjust' is enabled."
           []]
      else [] in
    ((dsdWorkerCount, pipelineCount), warnings).

(** The part of the [serializer.MetricSerializer] interface that
    [createIterableMetrics] calls. *)
Class MetricSerializer (Ser : Type) := {
  AreSeriesEnabled : Ser → bool;
  AreSketchesEnabled : Ser → bool
}.

Record FlushAndSerializeInParallel := {
  ChannelSize : Z;
  BufferSize : Z
}.

(** Modelled from the spec: the types [metrics.Serie] and
    [metrics.SketchSeries] are declared outside the sources at hand; the
    callbacks only print them, so a value is kept as its rendering. *)
Record Serie := { serie_string : string }.
Record SketchSeries := { sketch_string : string }.

(** What a sink callback does with one flushed item. *)
Inductive callback_effect :=
| Debugf (fmt : string) (a : list arg)
| DebugfServerless (fmt : string) (a : list arg)
| UpdateHugeSerieTelemetry (se : Serie)
| UpdateHugeSketchesTelemetry (sk : SketchSeries).

(** The constructor calls made by [createIterableMetrics], in order. *)
Inductive sink_created := CreatedSeries | CreatedSketches.

Section IterableMetrics.
(** The sink types and their constructors [metrics.NewIterableSeries] and
    [metrics.NewIterableSketches] are declared in package [metrics], outside
    the sources at hand: they are parameters here.  A constructor takes the
    callback and the two sizes and returns a pointer. *)
Context {IterableSeries IterableSketches : Type}.
Context (NewIterableSeries :
           (Serie → list callback_effect) → Z → Z → option IterableSeries).
Context (NewIterableSketches :
           (SketchSeries → list callback_effect) → Z → Z → option IterableSketches).

Record iterable_metrics := {
  series : option IterableSeries;
  sketches : option IterableSketches;
  created : list sink_created
}.

(** [createIterableMetrics]: both results start as [nil] pointers and are
    assigned only under the serializer's gates. *)
Definition createIterableMetrics {Ser : Type} `{!MetricSerializer Ser}
  (flushAndSerializeInParallel : FlushAndSerializeInParallel)
  (serializer : Ser) (logPayloads isServerless : bool) : iterable_metrics :=
  let r := {| series := None; sketches := None; created := [] |} in
  let r :=
    if AreSeriesEnabled serializer then
      {| series :=
           NewIterableSeries
             (λ se,
                (if logPayloads
                 then [Debugf "Flushing serie: %s" [AStr (serie_string se)]]
                 else [])
                ++ [UpdateHugeSerieTelemetry se])
             (BufferSize flushAndSerializeInParallel)
             (ChannelSize flushAndSerializeInParallel);
         sketches := sketches r;
         created := created r ++ [CreatedSeries] |}
    else r in
  let r :=
    if AreSketchesEnabled serializer then
      {| series := series r;
         sketches :=
           NewIterableSketches
             (λ sketch,
                (if logPayloads
                 then [Debugf "Flushing Sketches: %v" [AStr (sketch_string sketch)]]
                 else [])
                ++ (if isServerless
                    then [DebugfServerless "Sending sketches payload : %s"
                            [AStr (sketch_string sketch)]]
                    else [])
                ++ [UpdateHugeSketchesTelemetry sketch])
             (BufferSize flushAndSerializeInParallel)
             (ChannelSize flushAndSerializeInParallel);
         created := created r ++ [CreatedSketches] |}
    else r in
  r.

End IterableMetrics.
Arguments iterable_metrics : clear implicits.

End Aggregator.

(** ** pkg/process/checks: the pod check of builds without kubelet or
       orchestrator support *)
Module Checks.
Import Go.

(** A call either returns or panics; a panic that nothing recovers ends the
    process. *)
Inductive outcome (A : Type) :=
| Returns (a : A)
| Panics (msg : string).
Arguments Returns {A} a.
Arguments Panics {A} msg.

Section PodCheck.
(** [config.AgentConfig], [model.SystemInfo] and [model.MessageBody] are
    declared in other packages; the check never looks inside them. *)
Context {AgentConfig SystemInfo MessageBody : Type}.

Record PodCheck := { sysInfo : option SystemInfo }.

(** [Pod] is the singleton [&PodCheck{}]. *)
Definition Pod : option PodCheck := Some {| sysInfo := None |}.

(** The receiver [c] is a pointer: [None] is a [nil] receiver.  [Init] writes
    through it. *)
Definition Init (c : option PodCheck) (cfg : option AgentConfig)
  (info : option SystemInfo) : outcome (option PodCheck) :=
  match c with
  | None => Panics "invalid memory address or nil pointer dereference"
  | Some _ => Returns (Some {| sysInfo := info |})
  end.

Definition Name (c : option PodCheck) : outcome string := Returns "pod".

Definition RealTime (c : option PodCheck) : outcome bool := Returns false.

Definition ShouldSaveLastRun (c : option PodCheck) : outcome bool := Returns true.

(** [Run] neither reads its receiver nor its arguments. *)
Definition Run (c : option PodCheck) (cfg : option AgentConfig) (groupID : Z)
  : outcome (option (list MessageBody) * error) :=
  Returns (None, Some (Errorf "Not implemented")).

Definition Cleanup (c : option PodCheck) : outcome unit := Returns tt.

End PodCheck.
Arguments PodCheck : clear implicits.

End Checks.

(** ** pkg/util/containers/providers/windows: the container provider *)
Module Windows.
Import GoInt Go.

(** [float64] is IEEE 754 binary64; conversions from integers round to the
    nearest value, ties to even. *)
Definition float64 : Type := spec_float.
Definition float64_of_int (z : Z) : float64 := binary_normalize 53 1024 z 0 false.
Definition float64_mul (a b : float64) : float64 := SFmul 53 1024 a b.
Definition float64_div (a b : float64) : float64 := SFdiv 53 1024 a b.

(** *** The docker and metrics types, with the fields the provider uses *)

Record Container := { ID : string }.

(** [types.ContainerJSON] as docker fills it on a successful inspect, with
    the [State] and [HostConfig] fields read here. *)
Record ContainerJSON := {
  cjson_ID : string;
  State_Pid : Z;
  State_StartedAt : string;
  HostConfig_NanoCPUs : Z;
  HostConfig_CPUPercent : Z;
  HostConfig_CPUCount : Z;
  HostConfig_Memory : Z
}.

Record NetworkStats := {
  RxBytes : Z;
  RxPackets : Z;
  TxBytes : Z;
  TxPackets : Z
}.

(** [types.StatsJSON]; a [nil] [Networks] map ranges like the empty one. *)
Record StatsJSON := {
  UsageInKernelmode : Z;
  TotalUsage : Z;
  PrivateWorkingSet : Z;
  Commit : Z;
  CommitPeak : Z;
  ReadSizeBytes : Z;
  WriteSizeBytes : Z;
  Networks : gmap string NetworkStats
}.

Record ContainerCPUStats := {
  User : float64;
  System : float64;
  UsageTotal : float64
}.

Record ContainerMemStats := {
  RSS : Z;
  mem_PrivateWorkingSet : Z;
  CommitBytes : Z;
  CommitPeakBytes : Z
}.

Record ContainerIOStats := {
  ReadBytes : Z;
  WriteBytes : Z
}.

Record ContainerMetrics := {
  CPU : option ContainerCPUStats;
  Memory : option ContainerMemStats;
  IO : option ContainerIOStats
}.

Record ContainerLimits := {
  CPULimit : float64;
  MemLimit : Z
}.

Record InterfaceNetStats := {
  NetworkName : string;
  BytesSent : Z;
  BytesRcvd : Z;
  PacketsSent : Z;
  PacketsRcvd : Z
}.

(** [metrics.ContainerNetStats] is a slice of pointers; [None] is [nil]. *)
Definition ContainerNetStats : Type := option (list InterfaceNetStats).

Record containerBundle := {
  metrics : option ContainerMetrics;
  networkMetrics : gmap string NetworkStats;
  limits : option ContainerLimits;
  startTime : Z
}.

(** The zero value [containerBundle{}]. *)
Definition empty_bundle : containerBundle :=
  {| metrics := None; networkMetrics := ∅; limits := None; startTime := 0 |}.

(** The provider without its two locks: calls are taken one at a time. *)
Record provider := {
  containers : gmap string containerBundle;
  agentCID : option string
}.

(** The provider registered by [init]: [&provider{}]. *)
Definition new_provider : provider := {| containers := ∅; agentCID := None |}.

(** *** What the provider asks of its environment *)

(** The docker client: the answers it gives during one prefetch. *)
Record DockerUtil := {
  RawContainerList : list Container + error_value;
  Inspect : string → ContainerJSON + error_value;
  GetContainerStats : string → option StatsJSON * error
}.

(** Whether a [for range] variable is one per loop (Go before 1.22) or one
    per iteration: [&container.ID] aliases later iterations in the first. *)
Inductive loop_variable := PerLoop | PerIteration.

Record Env := {
  GetDockerUtil : DockerUtil + error_value;
  Getpid : Z;
  Getppid : Z;
  NumCPU : Z;
  (** [time.Parse(time.RFC3339, s)] followed by [Unix()]. *)
  ParseRFC3339 : string → Z + error_value;
  loopvar : loop_variable
}.

(** *** Filling a bundle *)

Definition fillContainerDetails (env : Env) (cjson : ContainerJSON)
  (bundle : containerBundle) : Logged containerBundle :=
  do startTime <-
    match ParseRFC3339 env (State_StartedAt cjson) with
    | inl unix => ret unix
    | inr err =>
        do_ log Debug "Impossible to get start time for container %s: %v"
              [AStr (cjson_ID cjson); AErr (Some err)];
        ret (startTime bundle)
    end;
  let cpuLimit :=
    if 0 <? HostConfig_NanoCPUs cjson then
      float64_mul
        (float64_div (float64_of_int (HostConfig_NanoCPUs cjson))
           (float64_of_int 1000000000))
        (float64_of_int 100)
    else if 0 <? HostConfig_CPUPercent cjson then
      float64_mul (float64_of_int (HostConfig_CPUPercent cjson))
        (float64_of_int (NumCPU env))
    else if 0 <? HostConfig_CPUCount cjson then
      float64_mul (float64_of_int (HostConfig_CPUCount cjson)) (float64_of_int 100)
    else float64_of_int 0 in
  ret {| metrics := metrics bundle;
         networkMetrics := networkMetrics bundle;
         limits := Some {| CPULimit := cpuLimit;
                           MemLimit := uint64_wrap (HostConfig_Memory cjson) |};
         startTime := startTime |}.

(** The integer part of [fillContainerMetrics]: [user], [kernel] and [total]
    as [uint64] values, in jiffies, after the [if user < 0] test. *)
Definition cpu_jiffies (stats : StatsJSON) : Z * Z * Z :=
  let kernel := uint64_div (UsageInKernelmode stats) 100000 in
  let total := uint64_div (TotalUsage stats) 100000 in
  let user := uint64_sub total kernel in
  let user := if user <? 0 then 0 else user in
  (user, kernel, total).

Definition fillContainerMetrics (stats : StatsJSON)
  (bundle : containerBundle) : containerBundle :=
  let '(user, kernel, total) := cpu_jiffies stats in
  {| metrics :=
       Some {| CPU := Some {| User := float64_of_int user;
                              System := float64_of_int kernel;
                              UsageTotal := float64_of_int total |};
               Memory := Some {| RSS := PrivateWorkingSet stats;
                                 mem_PrivateWorkingSet := PrivateWorkingSet stats;
                                 CommitBytes := Commit stats;
                                 CommitPeakBytes := CommitPeak stats |};
               IO := Some {| ReadBytes := ReadSizeBytes stats;
                             WriteBytes := WriteSizeBytes stats |} |};
     networkMetrics := networkMetrics bundle;
     limits := limits bundle;
     startTime := startTime bundle |}.

Definition fillContainerNetworkMetrics (stats : StatsJSON)
  (bundle : containerBundle) : containerBundle :=
  {| metrics := metrics bundle;
     networkMetrics := Networks stats;
     limits := limits bundle;
     startTime := startTime bundle |}.

(** *** Prefetch *)

(** What the fetching goroutines share: the provider's [agentCID] (its
    pointee), whether that pointer aims at the running loop's variable, and
    the map under construction. *)
Record fetch := {
  fetch_agentCID : option string;
  fetch_aliased : bool;
  fetch_containers : gmap string containerBundle
}.

(** The bundle built for one container, and whether the inspected process
    is the agent or its parent. *)
Definition inspect_bundle (env : Env) (dockerUtil : DockerUtil)
  (container : Container) : Logged (containerBundle * bool) :=
  let containerBundle := empty_bundle in
  do_ log Debug "Inspecting container %s" [AStr (ID container)];
  do inspected <-
    match Inspect dockerUtil (ID container) with
    | inl cjson =>
        do b <- fillContainerDetails env cjson containerBundle;
        ret (b, (State_Pid cjson =? Getpid env) || (State_Pid cjson =? Getppid env))
    | inr err =>
        do_ log Info "Impossible to inspect container %s: %v"
              [AStr (ID container); AErr (Some err)];
        ret (containerBundle, false)
    end;
  let '(containerBundle, isAgent) := inspected in
  do containerBundle <-
    match GetContainerStats dockerUtil (ID container) with
    | (Some stats, None) =>
        ret (fillContainerNetworkMetrics stats
               (fillContainerMetrics stats containerBundle))
    | (_, err) =>
        do_ log Info "Impossible to get stats for container %s: %v"
              [AStr (ID container); AErr err];
        ret containerBundle
    end;
  ret (containerBundle, isAgent).

(** The bundle recorded for the container [id]. *)
Definition stored_bundle (env : Env) (dockerUtil : DockerUtil) (id : string)
  : containerBundle :=
  fst (fst (inspect_bundle env dockerUtil {| ID := id |})).

(** One iteration of the loop over a chunk. *)
Definition fetch_container (env : Env) (dockerUtil : DockerUtil)
  (container : Container) (st : fetch) : Logged fetch :=
  (* the loop variable takes its next value; a pointer to it sees the change *)
  let agent :=
    match loopvar env with
    | PerLoop => if fetch_aliased st then Some (ID container) else fetch_agentCID st
    | PerIteration => fetch_agentCID st
    end in
  do r <- inspect_bundle env dockerUtil container;
  let '(containerBundle, isAgent) := r in
  let agent := if isAgent then Some (ID container) else agent in
  let aliased :=
    match loopvar env with
    | PerLoop => fetch_aliased st || isAgent
    | PerIteration => false
    end in
  do_ log Debug "Done inspecting %s" [AStr (ID container)];
  ret {| fetch_agentCID := agent;
         fetch_aliased := aliased;
         fetch_containers := <[ID container := containerBundle]> (fetch_containers st) |}.

(** [rawContainers[start:end]] for [0 ≤ start ≤ end ≤ len]. *)
Definition slice {A} (xs : list A) (start end_ : Z) : list A :=
  take (Z.to_nat (end_ - start)) (drop (Z.to_nat start) xs).

(** The body of one goroutine, run to completion.  Slice lengths and indices
    are Go [int]s; they stay below the length of a slice held in memory, far
    from the wrap-around, and are written on [Z]. *)
Definition fetch_chunk (env : Env) (dockerUtil : DockerUtil)
  (rawContainers : list Container) (chunkSize start : Z) (st : fetch)
  : Logged fetch :=
  let len := Z.of_nat (length rawContainers) in
  let end_ := start + chunkSize in
  let end_ := if len <? end_ then len else end_ in
  do_ log Debug ("Retrieving info on containers %d -> %d" +:+ newline)
        [AInt start; AInt end_];
  do st' <-
    for_range (fetch_container env dockerUtil) (slice rawContainers start end_)
      {| fetch_agentCID := fetch_agentCID st;
         fetch_aliased := false;
         fetch_containers := fetch_containers st |};
  ret st'.

(** [for i := 0; i < len(rawContainers); i += chunkSize], the goroutines
    taken in the order they are started.  [None]: the loop is still running
    when the fuel is spent. *)
Fixpoint fetch_loop (fuel : nat) (env : Env) (dockerUtil : DockerUtil)
  (rawContainers : list Container) (chunkSize i : Z) (st : fetch)
  : option (Logged fetch) :=
  if i <? Z.of_nat (length rawContainers) then
    match fuel with
    | O => None
    | S fuel' =>
        let '(st', t1) := fetch_chunk env dockerUtil rawContainers chunkSize i st in
        match fetch_loop fuel' env dockerUtil rawContainers chunkSize (i + chunkSize) st' with
        | Some (st'', t2) => Some (st'', t1 ++ t2)
        | None => None
        end
    end
  else Some (ret st).

(** Running the loop body over [xs] took the map [m] to [m']: every id of
    [xs] is bound to its bundle, the other ids are as before, and the log [t]
    holds what each inspection logged. *)
Definition fetched (env : Env) (dockerUtil : DockerUtil) (xs : list Container)
  (m m' : gmap string containerBundle) (t : trace) : Prop :=
  (∀ id : string,
     m' !! id = if decide (id ∈ ID <$> xs)
                then Some (stored_bundle env dockerUtil id)
                else m !! id)
  ∧ (∀ (c : Container) (e : entry),
       c ∈ xs → e ∈ snd (inspect_bundle env dockerUtil c) → e ∈ t).

Definition chunk_size (len : Z) : Z :=
  let chunkSize := len `quot` 8 in
  if chunkSize <=? 1 then len else chunkSize.

(** [Prefetch]: the provider afterwards, the error returned and the log. *)
Definition Prefetch (env : Env) (mp : provider)
  : option (Logged (provider * error)) :=
  match GetDockerUtil env with
  | inr err => Some (ret (mp, Some err))
  | inl dockerUtil =>
      match RawContainerList dockerUtil with
      | inr err => Some (ret (mp, Some err))
      | inl rawContainers =>
          let len := Z.of_nat (length rawContainers) in
          let chunkSize := chunk_size len in
          let st := {| fetch_agentCID := agentCID mp;
                       fetch_aliased := false;
                       fetch_containers := ∅ |} in
          match fetch_loop (length rawContainers) env dockerUtil rawContainers
                  chunkSize 0 st with
          | None => None
          | Some (st', t) =>
              Some
                (do_ log Debug "Retrieved %d containers from docker" [AInt len];
                 do_ log Info ("Fetching container info by batch of %d" +:+ newline)
                       [AInt chunkSize];
                 do_ ((tt, t) : Logged unit);
                 ret ({| containers := fetch_containers st';
                         agentCID := fetch_agentCID st' |}, None))
          end
      end
  end.

(** *** The accessors *)

Definition not_found : error := Some (Errorf "container not found").

Definition ContainerExists (mp : provider) (containerID : string) : bool :=
  match containers mp !! containerID with
  | Some _ => true
  | None => false
  end.

Definition GetContainerStartTime (mp : provider) (containerID : string)
  : Z * error :=
  match containers mp !! containerID with
  | None => (0, not_found)
  | Some containerBundle => (startTime containerBundle, None)
  end.

Definition GetContainerMetrics (mp : provider) (containerID : string)
  : option ContainerMetrics * error :=
  match containers mp !! containerID with
  | None => (None, not_found)
  | Some containerBundle => (metrics containerBundle, None)
  end.

Definition GetContainerLimits (mp : provider) (containerID : string)
  : option ContainerLimits * error :=
  match containers mp !! containerID with
  | None => (None, not_found)
  | Some containerBundle => (limits containerBundle, None)
  end.

(** The body of the loop of [GetNetworkMetrics] for one interface. *)
Definition interface_stat (networks : gmap string string) (ifaceName : string)
  (netStat : NetworkStats) : InterfaceNetStats :=
  let name :=
    match networks !! ifaceName with
    | Some nw => nw
    | None => ifaceName
    end in
  {| NetworkName := name;
     BytesSent := TxBytes netStat;
     BytesRcvd := RxBytes netStat;
     PacketsSent := TxPackets netStat;
     PacketsRcvd := RxPackets netStat |}.

(** Go leaves the order of a [range] over a map open; the order of
    [map_to_list] stands for the one taken. *)
Definition GetNetworkMetrics (mp : provider) (containerID : string)
  (networks : gmap string string) : ContainerNetStats * error :=
  match containers mp !! containerID with
  | None => (None, not_found)
  | Some containerBundle =>
      let netStats :=
        foldl (λ netStats '(ifaceName, netStat),
                 netStats ++ [interface_stat networks ifaceName netStat])
          [] (map_to_list (networkMetrics containerBundle)) in
      (Some netStats, None)
  end.

(** A [range] over a map visits every entry once, in an order that Go leaves
    open and that may differ from one loop to the next. *)
Definition visits_every_entry
  (range : gmap string NetworkStats → list (string * NetworkStats)) : Prop :=
  ∀ m, range m ≡ₚ map_to_list m.

(** [GetNetworkMetrics] with the order taken by its [range] given as
    [range]; [GetNetworkMetrics] above is the case of [map_to_list]. *)
Definition GetNetworkMetricsIn
  (range : gmap string NetworkStats → list (string * NetworkStats))
  (mp : provider) (containerID : string) (networks : gmap string string)
  : ContainerNetStats * error :=
  match containers mp !! containerID with
  | None => (None, not_found)
  | Some containerBundle =>
      let netStats :=
        foldl (λ netStats '(ifaceName, netStat),
                 netStats ++ [interface_stat networks ifaceName netStat])
          [] (range (networkMetrics containerBundle)) in
      (Some netStats, None)
  end.

(** [GetAgentCID] drops the error of the prefetch it forces. *)
Definition GetAgentCID (env : Env) (mp : provider)
  : option (Logged (provider * (string * error))) :=
  let forced :=
    match agentCID mp with
    | None =>
        match Prefetch env mp with
        | None => None
        | Some ((mp', _), t) =>
            Some (do_ log Info "AgentCID is empty, forcing a prefetch" [];
                  do_ ((tt, t) : Logged unit);
                  ret mp')
        end
    | Some _ => Some (ret mp)
    end in
  match forced with
  | None => None
  | Some (mp', t) =>
      match agentCID mp' with
      | None => Some ((mp', ("", None)), t)
      | Some cid => Some ((mp', (cid, None)), t)
      end
  end.

Definition GetPIDs (mp : provider) (containerID : string)
  : option (list Z) * error :=
  (None, None).

Definition ContainerIDForPID (mp : provider) (pid : Z) : string * error :=
  ("", Some (Errorf "not supported on windows")).

Definition GetNumFileDescriptors (mp : provider) (pid : Z) : Z * error :=
  (0, Some (Errorf "not supported on windows")).

End Windows.

(** ** What a prefetch leaves to observe *)
Module Observed.
Import GoInt Go Windows.

(** The test of [Prefetch] on an inspected container: its process is the
    agent's or the agent's parent.  A container that cannot be inspected is
    not tested. *)
Definition is_agent (env : Env) (dockerUtil : DockerUtil) (container : Container)
  : bool :=
  match Inspect dockerUtil (ID container) with
  | inl cjson => (State_Pid cjson =? Getpid env) || (State_Pid cjson =? Getppid env)
  | inr _ => false
  end.

(** The id announced by a log entry written just before a container is
    inspected. *)
Definition inspected_id (e : entry) : option string :=
  match e with
  | Log Debug fmt [AStr id] =>
      if decide (fmt = "Inspecting container %s") then Some id else None
  | _ => None
  end.

(** The containers a log shows as inspected, in the order of the log. *)
Definition inspected_ids (t : trace) : list string := omap inspected_id t.

(** The first index of a chunk, from the log entry its goroutine writes when
    it starts. *)
Definition chunk_start (e : entry) : option Z :=
  match e with
  | Log Debug fmt [AInt start; AInt _] =>
      if decide (fmt = "Retrieving info on containers %d -> %d" +:+ newline)
      then Some start else None
  | _ => None
  end.

(** The goroutines a log shows as started, by the first index of their
    chunks. *)
Definition chunk_starts (t : trace) : list Z := omap chunk_start t.

End Observed.

(** ** pkg/util/containers/providers/windows: routes and gateway *)
Module WindowsNet.
Import GoInt Go Checks Windows.

(** [xs[i]]: an index outside the slice panics. *)
Definition index {A} (xs : list A) (i : nat) : outcome A :=
  match xs !! i with
  | Some x => Returns x
  | None => Panics "index out of range"
  end.

(** What the gateway functions ask of the operating system and of the
    standard library. *)
Record RouteEnv := {
  (** [exec.Command(name, args...).CombinedOutput()] *)
  CombinedOutput : string → list string → string + error_value;
  (** the tokens a [bufio.Scanner] over the output yields until [Scan]
      returns false *)
  ScanLines : string → list string;
  (** [strings.Fields] *)
  Fields : string → list string;
  (** [net.ParseIP]: [None] is the [nil] address *)
  ParseIP : string → option (list Z)
}.

(** The loop of [defaultGatewayFields] over the scanned lines. *)
Fixpoint scan_gateway (env : RouteEnv) (lines : list string)
  : outcome (option (list string) * error) :=
  match lines with
  | [] => Returns (None, Some (Errorf "couldn't retrieve default gateway information"))
  | text :: lines' =>
      let fields := Fields env text in
      if Z.of_nat (length fields) =? 5 then
        match index fields 0 with
        | Panics msg => Panics msg
        | Returns first =>
            if decide (first = "0.0.0.0") then Returns (Some fields, None)
            else scan_gateway env lines'
        end
      else scan_gateway env lines'
  end.

Definition defaultGatewayFields (env : RouteEnv)
  : outcome (option (list string) * error) :=
  match CombinedOutput env "route" ["print"; "0.0.0.0"] with
  | inr err => Returns (None, Some err)
  | inl output => scan_gateway env (ScanLines env output)
  end.

Definition GetDefaultGateway (env : RouteEnv) (mp : provider)
  : outcome (option (list Z) * error) :=
  match defaultGatewayFields env with
  | Panics msg => Panics msg
  | Returns (_, Some err) => Returns (None, Some err)
  | Returns (fields, None) =>
      match index (default [] fields) 2 with
      | Panics msg => Panics msg
      | Returns gateway => Returns (ParseIP env gateway, None)
      end
  end.

Definition GetDefaultHostIPs (env : RouteEnv) (mp : provider)
  : outcome (option (list string) * error) :=
  match defaultGatewayFields env with
  | Panics msg => Panics msg
  | Returns (_, Some err) => Returns (None, Some err)
  | Returns (fields, None) =>
      match index (default [] fields) 3 with
      | Panics msg => Panics msg
      | Returns ip => Returns (Some [ip], None)
      end
  end.

(** The rows of the route table and of the interface table that [iphelper]
    returns, with the fields read by [DetectNetworkDestinations]; the fields
    of a route are [uint32] values, the name of an interface is an array of
    256 UTF-16 code units. *)
Record MIB_IPFORWARDROW := {
  DwForwardDest : Z;
  DwForwardMask : Z;
  DwForwardIfIndex : Z
}.

Record MibIfRow := { WszName : list Z }.

(** The zero row, read from the interface table at an index it does not
    hold. *)
Definition zero_MibIfRow : MibIfRow := {| WszName := replicate 256 0 |}.

Record NetworkDestination := {
  Interface : string;
  Subnet : Z;
  Mask : Z
}.

Record IpEnv := {
  GetIPv4RouteTable : list MIB_IPFORWARDROW + error_value;
  GetIFTable : gmap Z MibIfRow + error_value;
  (** [windows.UTF16ToString] *)
  UTF16ToString : list Z → string
}.

(** The body of the loop of [DetectNetworkDestinations] for one route. *)
Definition route_destination (env : IpEnv) (interfaceTable : gmap Z MibIfRow)
  (row : MIB_IPFORWARDROW) : NetworkDestination :=
  let itf := default zero_MibIfRow (interfaceTable !! DwForwardIfIndex row) in
  {| Interface := UTF16ToString env (WszName itf);
     Subnet := uint64_wrap (DwForwardDest row);
     Mask := uint64_wrap (DwForwardMask row) |}.

Definition DetectNetworkDestinations (env : IpEnv) (mp : provider) (pid : Z)
  : option (list NetworkDestination) * error :=
  match GetIPv4RouteTable env with
  | inr err => (None, Some err)
  | inl routingTable =>
      match GetIFTable env with
      | inr err => (None, Some err)
      | inl interfaceTable =>
          let netDestinations :=
            foldl (λ netDestinations row,
                     netDestinations ++ [route_destination env interfaceTable row])
              [] routingTable in
          (Some netDestinations, None)
      end
  end.

End WindowsNet.

(** ** Sample inputs *)
Module Samples.
Import Go Aggregator Checks Windows WindowsNet.

(** A configuration holding the two settings of the sizer. *)
Definition sizer_config (autoAdjust : bool) (pipelineCount : Z) : Config :=
  {| GetBool := λ key,
       if decide (key = "dogstatsd_pipeline_autoadjust") then autoAdjust else false;
     GetInt := λ key,
       if decide (key = "dogstatsd_pipeline_count") then pipelineCount else 0 |}.

(** A serializer that answers its two gates from two flags. *)
Record flag_serializer := { series_on : bool; sketches_on : bool }.

#[export] Instance flag_serializer_gates : MetricSerializer flag_serializer :=
  {| AreSeriesEnabled := series_on; AreSketchesEnabled := sketches_on |}.

(** Modelled from the spec: a sink as the spec's IterableSink describes it,
    a bounded streaming hand-off channel with a callback invoked per drained
    item.  The constructor allocates the sink and returns a pointer to it. *)
Record IterableSeries := {
  series_callback : Serie → list callback_effect;
  series_sizes : Z * Z
}.

Record IterableSketches := {
  sketches_callback : SketchSeries → list callback_effect;
  sketches_sizes : Z * Z
}.

Definition NewIterableSeries (callback : Serie → list callback_effect)
  (size1 size2 : Z) : option IterableSeries :=
  Some {| series_callback := callback; series_sizes := (size1, size2) |}.

Definition NewIterableSketches (callback : SketchSeries → list callback_effect)
  (size1 size2 : Z) : option IterableSketches :=
  Some {| sketches_callback := callback; sketches_sizes := (size1, size2) |}.

Definition eth0_stats : NetworkStats :=
  {| RxBytes := 10; RxPackets := 1; TxBytes := 20; TxPackets := 2 |}.

Definition web_bundle : containerBundle :=
  {| metrics := None;
     networkMetrics := {[ "eth0" := eth0_stats ]};
     limits := None;
     startTime := 1650000000 |}.

(** A bundle with two interfaces and the provider that has published it as
    ["gw"]. *)
Definition eth1_stats : NetworkStats :=
  {| RxBytes := 300; RxPackets := 3; TxBytes := 400; TxPackets := 4 |}.

Definition two_interfaces : containerBundle :=
  {| metrics := None;
     networkMetrics := {[ "eth0" := eth0_stats; "eth1" := eth1_stats ]};
     limits := None;
     startTime := 1650000000 |}.

Definition gateway_container : provider :=
  {| containers := {[ "gw" := two_interfaces ]}; agentCID := None |}.

(** A [range] that takes the entries of a map in the reverse order of
    [map_to_list]. *)
Definition backwards (m : gmap string NetworkStats) : list (string * NetworkStats) :=
  reverse (map_to_list m).

(** A provider that has published one container, ["web"]. *)
Definition one_container : provider :=
  {| containers := {[ "web" := web_bundle ]}; agentCID := None |}.

(** Statistics whose kernel time exceeds the total. *)
Definition kernel_heavy : StatsJSON :=
  {| UsageInKernelmode := 300000;
     TotalUsage := 100000;
     PrivateWorkingSet := 4096;
     Commit := 8192;
     CommitPeak := 8192;
     ReadSizeBytes := 0;
     WriteSizeBytes := 0;
     Networks := ∅ |}.

(** A docker daemon with three containers: inspecting ["db"] fails, the
    statistics of ["web"] cannot be read, ["agent"] runs the agent. *)
Definition three_containers : list Container :=
  [ {| ID := "web" |}; {| ID := "db" |}; {| ID := "agent" |} ].

Definition flaky_docker : DockerUtil :=
  {| RawContainerList := inl three_containers;
     Inspect := λ id,
       if decide (id = "db") then inr (Errorf "No such container")
       else inl {| cjson_ID := id;
                   State_Pid := if decide (id = "agent") then 4242 else 7;
                   State_StartedAt := "2022-04-15T05:20:00Z";
                   HostConfig_NanoCPUs := 2000000000;
                   HostConfig_CPUPercent := 0;
                   HostConfig_CPUCount := 0;
                   HostConfig_Memory := 1073741824 |};
     GetContainerStats := λ id,
       if decide (id = "web") then (None, Some (Errorf "context deadline exceeded"))
       else (Some kernel_heavy, None) |}.

Definition flaky_env : Env :=
  {| GetDockerUtil := inl flaky_docker;
     Getpid := 4242;
     Getppid := 1;
     NumCPU := 4;
     ParseRFC3339 := λ s,
       if decide (s = "2022-04-15T05:20:00Z") then inl 1650000000
       else inr (Errorf "cannot parse time");
     loopvar := PerLoop |}.

(** The same daemon listing the agent's container first. *)
Definition agent_first_env (lv : loop_variable) : Env :=
  {| GetDockerUtil :=
       inl {| RawContainerList := inl [ {| ID := "agent" |}; {| ID := "web" |} ];
              Inspect := Inspect flaky_docker;
              GetContainerStats := GetContainerStats flaky_docker |};
     Getpid := 4242;
     Getppid := 1;
     NumCPU := 4;
     ParseRFC3339 := ParseRFC3339 flaky_env;
     loopvar := lv |}.

(** Seventeen containers ["a"] to ["q"], none of which can be inspected:
    enough for the fetch to be split into chunks of two. *)
Definition seventeen_env : Env :=
  {| GetDockerUtil :=
       inl {| RawContainerList :=
                inl ((λ n : nat, {| ID := String (Ascii.ascii_of_nat (97 + n)) "" |})
                       <$> seq 0 17);
              Inspect := λ _, inr (Errorf "No such container");
              GetContainerStats := λ _, (None, None) |};
     Getpid := 4242;
     Getppid := 1;
     NumCPU := 4;
     ParseRFC3339 := λ s, inr (Errorf "cannot parse time");
     loopvar := PerLoop |}.

(** No docker client can be obtained. *)
Definition no_docker_env : Env :=
  {| GetDockerUtil := inr (Errorf "docker not available");
     Getpid := 4242;
     Getppid := 1;
     NumCPU := 4;
     ParseRFC3339 := λ s, inr (Errorf "cannot parse time");
     loopvar := PerLoop |}.

Definition LF : Ascii.ascii := Ascii.ascii_of_nat 10.
Definition CR : Ascii.ascii := Ascii.ascii_of_nat 13.
Definition TAB : Ascii.ascii := Ascii.ascii_of_nat 9.
Definition SPACE : Ascii.ascii := Ascii.ascii_of_nat 32.

Definition VT : Ascii.ascii := Ascii.ascii_of_nat 11.
Definition FF : Ascii.ascii := Ascii.ascii_of_nat 12.

(** [dropCR] of [bufio]: the line without one carriage return at its end. *)
Fixpoint drop_cr (s : string) : string :=
  match s with
  | EmptyString => EmptyString
  | String a EmptyString => if decide (a = CR) then EmptyString else s
  | String a s' => String a (drop_cr s')
  end.

(** A stand-in for a [bufio.Scanner] with the split function [ScanLines], on
    output whose lines fit the scanner's buffer: the text before each line
    feed and the text after the last one when there is some, each without
    one carriage return at its end. *)
Fixpoint split_lines (acc : string) (s : string) : list string :=
  match s with
  | EmptyString => if decide (acc = "") then [] else [drop_cr acc]
  | String a s' =>
      if decide (a = LF) then drop_cr acc :: split_lines "" s'
      else split_lines (acc +:+ String a "") s'
  end.

(** A stand-in for [strings.Fields] on ASCII text: the maximal runs without
    a space, tab, line feed, vertical tab, form feed or carriage return. *)
Definition ascii_space (a : Ascii.ascii) : bool :=
  bool_decide (a = SPACE ∨ a = TAB ∨ a = LF ∨ a = VT ∨ a = FF ∨ a = CR).

Fixpoint split_fields (acc : string) (s : string) : list string :=
  match s with
  | EmptyString => if decide (acc = "") then [] else [acc]
  | String a s' =>
      if ascii_space a then
        (if decide (acc = "") then [] else [acc]) ++ split_fields "" s'
      else split_fields (acc +:+ String a "") s'
  end.

Definition nl : string := String LF "".

(** The output of [route print 0.0.0.0] quoted in the source, shortened. *)
Definition route_output : string :=
  "IPv4 Route Table" +:+ nl +:+
  "Active Routes:" +:+ nl +:+
  "Network Destination        Netmask          Gateway       Interface  Metric" +:+ nl +:+
  "          0.0.0.0          0.0.0.0      10.211.55.1      10.211.55.4     25" +:+ nl +:+
  "Persistent Routes:" +:+ nl +:+
  "          0.0.0.0          0.0.0.0      172.21.96.1  Default" +:+ nl.

Definition route_env (output : string + error_value) : RouteEnv :=
  {| CombinedOutput := λ _ _, output;
     ScanLines := split_lines "";
     Fields := split_fields "";
     ParseIP := λ s,
       if decide (s = "10.211.55.1")
       then Some [0; 0; 0; 0; 0; 0; 0; 0; 0; 0; 255; 255; 10; 211; 55; 1]
       else None |}.

(** Two routes, the second through an interface the interface table does
    not hold. *)
Definition ip_env : IpEnv :=
  {| GetIPv4RouteTable :=
       inl [ {| DwForwardDest := 0; DwForwardMask := 0; DwForwardIfIndex := 17 |};
             {| DwForwardDest := 4294967295; DwForwardMask := 4294967295;
                DwForwardIfIndex := 99 |} ];
     GetIFTable := inl {[ 17 := {| WszName := [101; 116; 104; 0; 0] |} ]};
     UTF16ToString := λ units,
       if decide (units = [101; 116; 104; 0; 0]) then "eth" else "" |}.

End Samples.

(** * Properties *)

(** ** Machine integers *)
Section GoIntFacts.
Import GoInt.

Lemma int_wrap_id (z : Z) : is_int z → int_wrap z = z.
Proof.
  unfold is_int, min_int, max_int, int_wrap. intros Hz.
  rewrite Z.mod_small; lia.
Qed.

Lemma int_wrap_is_int (z : Z) : is_int (int_wrap z).
Proof.
  unfold is_int, min_int, max_int, int_wrap.
  pose proof (Z.mod_pos_bound (z + 2 ^ 63) (2 ^ 64)). lia.
Qed.

Lemma int_sub_sub (a b c : Z) : int_sub (int_sub a b) c = int_wrap (a - b - c).
Proof.
  unfold int_sub, int_wrap.
  replace ((a - b + 2 ^ 63) `mod` 2 ^ 64 - 2 ^ 63 - c + 2 ^ 63)
    with ((a - b + 2 ^ 63) `mod` 2 ^ 64 + - c) by lia.
  rewrite Zplus_mod_idemp_l. do 2 f_equal. lia.
Qed.

Lemma uint64_wrap_nonneg (z : Z) : 0 ≤ uint64_wrap z < 2 ^ 64.
Proof. unfold uint64_wrap. apply Z.mod_pos_bound. lia. Qed.

Lemma uint64_wrap_id (z : Z) : is_uint64 z → uint64_wrap z = z.
Proof.
  unfold is_uint64, max_uint64, uint64_wrap. intros Hz.
  apply Z.mod_small. lia.
Qed.

Lemma div_is_uint64 (z d : Z) : is_uint64 z → 0 < d → is_uint64 (z `div` d).
Proof.
  unfold is_uint64, max_uint64. intros Hz Hd. split.
  - apply Z.div_pos; lia.
  - assert (z `div` d ≤ z) by (apply Z.div_le_upper_bound; nia). lia.
Qed.

Lemma uint64_div_small (z d : Z) : is_uint64 z → 0 < d → uint64_div z d = z `div` d.
Proof.
  unfold uint64_div. intros Hz Hd. by apply uint64_wrap_id, div_is_uint64.
Qed.

Lemma uint64_sub_borrow (a b : Z) :
  is_uint64 a → is_uint64 b → a < b → uint64_sub a b = 2 ^ 64 + a - b.
Proof.
  unfold is_uint64, max_uint64, uint64_sub, uint64_wrap. intros Ha Hb Hlt.
  replace (a - b) with (2 ^ 64 + a - b + (-1) * 2 ^ 64) by lia.
  rewrite Z.mod_add by lia. apply Z.mod_small. lia.
Qed.

End GoIntFacts.

(** ** The topology sizer *)
Section Sizer.
Import GoInt Go Aggregator Samples.

Example manual_8_3 :
  getDogStatsDWorkerAndPipelineCount (sizer_config false 3) 8 = ((4, 3), []).
Proof. reflexivity. Qed.

Example manual_4_0 :
  getDogStatsDWorkerAndPipelineCount (sizer_config false 0) 4 = ((2, 1), []).
Proof. reflexivity. Qed.

Example auto_8 :
  fst (getDogStatsDWorkerAndPipelineCount (sizer_config true 1) 8) = (4, 3).
Proof. reflexivity. Qed.

Example auto_2 :
  fst (getDogStatsDWorkerAndPipelineCount (sizer_config true 1) 2) = (2, 1).
Proof. reflexivity. Qed.

(** Below zero, which no vCPU count reaches, the [int] subtraction can wrap
    around. *)
Example manual_wraps_below_zero :
  fst (getDogStatsDWorkerAndPipelineCount (sizer_config false 1) min_int)
  = (max_int - 1, 1).
Proof. reflexivity. Qed.

(** Without a wrap-around the manual worker count is the plain difference:
    this is the case for every vCPU count from zero up. *)
Lemma manual_no_wrap (vCPUs p : Z) :
  0 ≤ vCPUs ≤ max_int → 1 ≤ p ≤ max_int →
  int_sub (int_sub vCPUs 1) p = vCPUs - 1 - p.
Proof.
  intros Hv Hp. rewrite int_sub_sub. apply int_wrap_id.
  unfold is_int, min_int, max_int in *. lia.
Qed.

(** C1: in manual mode (auto-adjust off) the pipeline count is the configured
    count when that is positive and 1 otherwise, and the worker count is
    [vCPUs - 1 - pipelineCount] raised to at least 2.  The difference is the
    one Go computes on [int] for every input; for every vCPU count from zero
    up it is the plain integer difference. *)
Theorem manual_mode_counts (cfg : Config) (vCPUs : Z) :
  GetBool cfg "dogstatsd_pipeline_autoadjust" = false →
  let configured := GetInt cfg "dogstatsd_pipeline_count" in
  let pipelineCount := if 0 <? configured then configured else 1 in
  fst (getDogStatsDWorkerAndPipelineCount cfg vCPUs)
    = (Z.max 2 (int_sub (int_sub vCPUs 1) pipelineCount), pipelineCount)
  ∧ (0 ≤ vCPUs ≤ max_int → is_int configured →
     fst (getDogStatsDWorkerAndPipelineCount cfg vCPUs)
       = (Z.max 2 (vCPUs - 1 - pipelineCount), pipelineCount)).
Proof.
  intros Hmanual configured pipelineCount.
  assert (Hp : (if configured <=? 0 then 1 else configured) = pipelineCount).
  { subst pipelineCount. destruct (Z.leb_spec configured 0), (Z.ltb_spec 0 configured); lia. }
  assert (Hrun : fst (getDogStatsDWorkerAndPipelineCount cfg vCPUs)
            = (Z.max 2 (int_sub (int_sub vCPUs 1) pipelineCount), pipelineCount)).
  { unfold getDogStatsDWorkerAndPipelineCount.
    rewrite Hmanual. cbn [negb fst].
    fold configured. rewrite Hp. f_equal.
    destruct (Z.ltb_spec (int_sub (int_sub vCPUs 1) pipelineCount) 2); lia. }
  split; [exact Hrun|].
  intros Hv Hc. rewrite Hrun, manual_no_wrap; [done|done|].
  subst pipelineCount. unfold is_int, max_int in *.
  destruct (Z.ltb_spec 0 configured); lia.
Qed.

Lemma manual_mode_counts_witness :
  fst (getDogStatsDWorkerAndPipelineCount (sizer_config false 3) 8) = (4, 3)
  ∧ fst (getDogStatsDWorkerAndPipelineCount (sizer_config false 0) 4) = (2, 1).
Proof.
  split.
  - destruct (manual_mode_counts (sizer_config false 3) 8) as [_ H]; [reflexivity|].
    apply H; unfold is_int, min_int, max_int; simpl; lia.
  - destruct (manual_mode_counts (sizer_config false 0) 4) as [_ H]; [reflexivity|].
    apply H; unfold is_int, min_int, max_int; simpl; lia.
Defined.

Lemma quot_2_is_int (z : Z) : is_int z → is_int (z `quot` 2).
Proof.
  unfold is_int, min_int, max_int. intros Hz.
  destruct (Z.le_gt_cases 0 z) as [Hpos|Hneg].
  - rewrite Z.quot_div_nonneg by lia.
    pose proof (Z.div_mod z 2). pose proof (Z.mod_pos_bound z 2). lia.
  - replace z with (- - z) by lia. rewrite Z.quot_opp_l by lia.
    rewrite Z.quot_div_nonneg by lia.
    pose proof (Z.div_mod (- z) 2). pose proof (Z.mod_pos_bound (- z) 2). lia.
Qed.

Lemma max_2_quot_div (z : Z) : Z.max 2 (z `quot` 2) = Z.max 2 (z `div` 2).
Proof.
  destruct (Z.le_gt_cases 0 z) as [Hpos|Hneg].
  - by rewrite Z.quot_div_nonneg by lia.
  - assert (z `quot` 2 ≤ 0).
    { replace z with (- - z) by lia. rewrite Z.quot_opp_l by lia.
      rewrite Z.quot_div_nonneg by lia.
      pose proof (Z.div_pos (- z) 2). lia. }
    assert (z `div` 2 < 0) by (apply Z.div_lt_upper_bound; lia).
    lia.
Qed.

(** C2: in auto mode (auto-adjust on) the worker count is
    [max(2, vCPUs / 2)] and the pipeline count is [max(1, workerCount - 1)];
    the configured manual pipeline count changes nothing in the counts, and a
    configured count above 1 only adds one warning to the log. *)
Theorem auto_mode_counts (cfg : Config) (vCPUs : Z) :
  GetBool cfg "dogstatsd_pipeline_autoadjust" = true →
  is_int vCPUs →
  let workerCount := Z.max 2 (vCPUs `quot` 2) in
  let pipelineCount := Z.max 1 (workerCount - 1) in
  fst (getDogStatsDWorkerAndPipelineCount cfg vCPUs) = (workerCount, pipelineCount)
  ∧ workerCount = Z.max 2 (vCPUs `div` 2)
  ∧ snd (getDogStatsDWorkerAndPipelineCount cfg vCPUs)
      = (if 1 <? GetInt cfg "dogstatsd_pipeline_count"
         then [Log Warn
                 "DogStatsD pipeline count value ignored since 'dogstatsd_pipeline_autoadjust' is enabled."
                 []]
         else [])
  ∧ (∀ cfg' : Config,
       GetBool cfg' "dogstatsd_pipeline_autoadjust" = true →
       fst (getDogStatsDWorkerAndPipelineCount cfg' vCPUs)
         = fst (getDogStatsDWorkerAndPipelineCount cfg vCPUs)).
Proof.
  intros Hauto Hv workerCount pipelineCount.
  assert (Hw : (if int_div vCPUs 2 <? 2 then 2 else int_div vCPUs 2) = workerCount).
  { unfold int_div. rewrite int_wrap_id by by apply quot_2_is_int.
    subst workerCount. destruct (Z.ltb_spec (vCPUs `quot` 2) 2); lia. }
  assert (Hwi : 2 ≤ workerCount ≤ max_int).
  { subst workerCount. pose proof (quot_2_is_int vCPUs Hv) as [_ Hq].
    unfold max_int in *. lia. }
  assert (Hp : (if int_sub workerCount 1 <=? 0 then 1 else int_sub workerCount 1)
               = pipelineCount).
  { unfold int_sub. rewrite int_wrap_id.
    - subst pipelineCount. destruct (Z.leb_spec (workerCount - 1) 0); lia.
    - unfold is_int, min_int, max_int in *. lia. }
  assert (Hrun : ∀ c : Config, GetBool c "dogstatsd_pipeline_autoadjust" = true →
            fst (getDogStatsDWorkerAndPipelineCount c vCPUs) = (workerCount, pipelineCount)).
  { intros c Hc. unfold getDogStatsDWorkerAndPipelineCount.
    rewrite Hc. cbn [negb fst]. by rewrite Hw, Hp. }
  split; [by apply Hrun|]. split; [apply max_2_quot_div|]. split.
  - unfold getDogStatsDWorkerAndPipelineCount. rewrite Hauto. reflexivity.
  - intros cfg' Hauto'. by rewrite !Hrun.
Qed.

Lemma auto_mode_counts_witness :
  fst (getDogStatsDWorkerAndPipelineCount (sizer_config true 5) 8) = (4, 3)
  ∧ fst (getDogStatsDWorkerAndPipelineCount (sizer_config true 1) 2) = (2, 1).
Proof.
  split.
  - refine (proj1 (auto_mode_counts (sizer_config true 5) 8 _ _)).
    + reflexivity.
    + unfold is_int, min_int, max_int; lia.
  - refine (proj1 (auto_mode_counts (sizer_config true 1) 2 _ _)).
    + reflexivity.
    + unfold is_int, min_int, max_int; lia.
Defined.

(** C3: whatever the vCPU count and the configuration, the sizer returns at
    least 2 workers and at least 1 pipeline, so neither count is zero; and
    its result is a function of the vCPU count and of the two settings it
    reads. *)
Theorem counts_never_zero (cfg : Config) (vCPUs : Z) :
  2 ≤ fst (fst (getDogStatsDWorkerAndPipelineCount cfg vCPUs))
  ∧ 1 ≤ snd (fst (getDogStatsDWorkerAndPipelineCount cfg vCPUs))
  ∧ fst (fst (getDogStatsDWorkerAndPipelineCount cfg vCPUs)) ≠ 0
  ∧ snd (fst (getDogStatsDWorkerAndPipelineCount cfg vCPUs)) ≠ 0
  ∧ (∀ cfg' : Config,
       GetBool cfg' "dogstatsd_pipeline_autoadjust"
         = GetBool cfg "dogstatsd_pipeline_autoadjust" →
       GetInt cfg' "dogstatsd_pipeline_count"
         = GetInt cfg "dogstatsd_pipeline_count" →
       getDogStatsDWorkerAndPipelineCount cfg' vCPUs
         = getDogStatsDWorkerAndPipelineCount cfg vCPUs).
Proof.
  assert (Hbounds : 2 ≤ fst (fst (getDogStatsDWorkerAndPipelineCount cfg vCPUs))
                    ∧ 1 ≤ snd (fst (getDogStatsDWorkerAndPipelineCount cfg vCPUs))).
  { unfold getDogStatsDWorkerAndPipelineCount.
    destruct (GetBool cfg _); cbn [negb fst snd].
    - destruct (Z.ltb_spec (int_div vCPUs 2) 2).
      + destruct (Z.leb_spec (int_sub 2 1) 0); lia.
      + destruct (Z.leb_spec (int_sub (int_div vCPUs 2) 1) 0); lia.
    - set (p := if GetInt cfg _ <=? 0 then 1 else GetInt cfg _).
      assert (1 ≤ p) by (subst p; destruct (Z.leb_spec (GetInt cfg "dogstatsd_pipeline_count") 0); lia).
      destruct (Z.ltb_spec (int_sub (int_sub vCPUs 1) p) 2); lia. }
  destruct Hbounds as [Hw Hp].
  repeat split; try lia.
  intros cfg' Hflag Hcount. unfold getDogStatsDWorkerAndPipelineCount.
  by rewrite Hflag, Hcount.
Qed.

Lemma counts_never_zero_witness :
  2 ≤ fst (fst (getDogStatsDWorkerAndPipelineCount (sizer_config false 64) 1))
  ∧ 1 ≤ snd (fst (getDogStatsDWorkerAndPipelineCount (sizer_config true 0) (-4))).
Proof.
  split.
  - apply (counts_never_zero (sizer_config false 64) 1).
  - apply (counts_never_zero (sizer_config true 0) (-4)).
Defined.

End Sizer.

(** ** The iterable sinks *)
Section Sinks.
Import Go Aggregator Samples.
Context {IterableSeries IterableSketches : Type}.
Context (NewIterableSeries :
           (Serie → list callback_effect) → Z → Z → option IterableSeries).
Context (NewIterableSketches :
           (SketchSeries → list callback_effect) → Z → Z → option IterableSketches).

(** C7: with constructors that return a non-nil pointer,
    [createIterableMetrics] returns a series sink exactly when the serializer
    has series enabled and a sketches sink exactly when it has sketches
    enabled; for a disabled capability the result is [nil] and the
    constructor of that sink is not called. *)
Theorem sinks_follow_serializer {Ser : Type} `{!MetricSerializer Ser}
  (f : FlushAndSerializeInParallel) (serializer : Ser)
  (logPayloads isServerless : bool) :
  (∀ callback size1 size2, is_Some (NewIterableSeries callback size1 size2)) →
  (∀ callback size1 size2, is_Some (NewIterableSketches callback size1 size2)) →
  let r := createIterableMetrics NewIterableSeries NewIterableSketches
             f serializer logPayloads isServerless in
  (is_Some (series r) ↔ AreSeriesEnabled serializer = true)
  ∧ (is_Some (sketches r) ↔ AreSketchesEnabled serializer = true)
  ∧ (series r = None ↔ AreSeriesEnabled serializer = false)
  ∧ (sketches r = None ↔ AreSketchesEnabled serializer = false)
  ∧ created r
      = (if AreSeriesEnabled serializer then [CreatedSeries] else [])
        ++ (if AreSketchesEnabled serializer then [CreatedSketches] else []).
Proof.
  intros Hseries Hsketches. unfold createIterableMetrics.
  destruct (AreSeriesEnabled serializer), (AreSketchesEnabled serializer);
    cbn [series sketches created app];
    repeat match goal with
    | |- context [NewIterableSeries ?c ?a ?b] =>
        let H := fresh in
        destruct (Hseries c a b) as [? H]; rewrite H; clear H
    | |- context [NewIterableSketches ?c ?a ?b] =>
        let H := fresh in
        destruct (Hsketches c a b) as [? H]; rewrite H; clear H
    end;
    rewrite ?is_Some_alt; intuition congruence.
Qed.

(** Without any assumption on the constructors: a disabled capability gives a
    [nil] sink and no constructor call. *)
Lemma disabled_sink_is_nil {Ser : Type} `{!MetricSerializer Ser}
  (f : FlushAndSerializeInParallel) (serializer : Ser)
  (logPayloads isServerless : bool) :
  let r := createIterableMetrics NewIterableSeries NewIterableSketches
             f serializer logPayloads isServerless in
  (AreSeriesEnabled serializer = false → series r = None ∧ CreatedSeries ∉ created r)
  ∧ (AreSketchesEnabled serializer = false →
     sketches r = None ∧ CreatedSketches ∉ created r).
Proof.
  unfold createIterableMetrics.
  destruct (AreSeriesEnabled serializer), (AreSketchesEnabled serializer);
    cbn [series sketches created app]; split; intros Hoff; try done;
    (split; [done|]); rewrite ?elem_of_cons, ?elem_of_nil; intuition congruence.
Qed.

End Sinks.

Section SinksRun.
Import Go Aggregator Samples.

Lemma sinks_follow_serializer_witness :
  let r := createIterableMetrics NewIterableSeries NewIterableSketches
             {| ChannelSize := 200; BufferSize := 4000 |}
             {| series_on := true; sketches_on := false |} false false in
  is_Some (series r) ∧ sketches r = None ∧ created r = [CreatedSeries].
Proof.
  cbn zeta.
  destruct (sinks_follow_serializer NewIterableSeries NewIterableSketches
              {| ChannelSize := 200; BufferSize := 4000 |}
              {| series_on := true; sketches_on := false |} false false)
    as (Hseries & _ & _ & Hsketches & Hcreated).
  - intros callback size1 size2. unfold NewIterableSeries. by eexists.
  - intros callback size1 size2. unfold NewIterableSketches. by eexists.
  - split; [by apply Hseries|]. split; [by apply Hsketches|]. exact Hcreated.
Defined.

End SinksRun.

(** ** The pod check *)
Section PodCheckFacts.
Import Go Checks.
Context {AgentConfig SystemInfo MessageBody : Type}.

(** C6: for every receiver, configuration and group id, [Run] returns: it
    does not panic, its result is [nil] and its error is the explicit
    ["Not implemented"]. *)
Theorem pod_run_not_implemented (c : option (PodCheck SystemInfo))
  (cfg : option AgentConfig) (groupID : Z) :
  ∃ err : error_value,
    Run (MessageBody := MessageBody) c cfg groupID = Returns (None, Some err)
    ∧ Error err = "Not implemented"
    ∧ ∀ msg, Run (MessageBody := MessageBody) c cfg groupID ≠ Panics msg.
Proof.
  exists (Errorf "Not implemented"). unfold Run.
  split; [reflexivity|]. split; [reflexivity|]. intros msg. discriminate.
Qed.

End PodCheckFacts.

(** ** The Windows container provider: accessors *)
Section Accessors.
Import GoInt Go Windows Samples.

Lemma network_loop_unfold (networks : gmap string string)
  (xs : list (string * NetworkStats)) (acc : list InterfaceNetStats) :
  foldl (λ netStats '(ifaceName, netStat),
           netStats ++ [interface_stat networks ifaceName netStat]) acc xs
  = acc ++ ((λ '(ifaceName, netStat), interface_stat networks ifaceName netStat) <$> xs).
Proof.
  revert acc. induction xs as [|[ifaceName netStat] xs IH]; intros acc; cbn.
  - by rewrite app_nil_r.
  - rewrite IH. by rewrite <- app_assoc.
Qed.

(** What the loop of [GetNetworkMetrics] builds for one interface, field by
    field. *)
Lemma interface_stat_fields (networks : gmap string string) (ifaceName : string)
  (netStat : NetworkStats) :
  interface_stat networks ifaceName netStat
  = {| NetworkName := default ifaceName (networks !! ifaceName);
       BytesSent := TxBytes netStat;
       BytesRcvd := RxBytes netStat;
       PacketsSent := TxPackets netStat;
       PacketsRcvd := RxPackets netStat |}.
Proof. unfold interface_stat. by destruct (networks !! ifaceName). Qed.

(** Whatever the order of the range, the slice built holds, for every stored
    interface, one entry with the counters of that interface. *)
Lemma network_range_entries (networks : gmap string string)
  (m : gmap string NetworkStats) (entries : list (string * NetworkStats)) :
  entries ≡ₚ map_to_list m →
  foldl (λ netStats '(ifaceName, netStat),
           netStats ++ [interface_stat networks ifaceName netStat]) [] entries
  ≡ₚ (λ '(ifaceName, netStat),
        {| NetworkName := default ifaceName (networks !! ifaceName);
           BytesSent := TxBytes netStat;
           BytesRcvd := RxBytes netStat;
           PacketsSent := TxPackets netStat;
           PacketsRcvd := RxPackets netStat |}) <$> map_to_list m.
Proof.
  intros Hperm. rewrite network_loop_unfold. cbn [app]. rewrite <- Hperm.
  apply eq_subrelation; [apply _|].
  apply Forall_fmap_ext_1, Forall_forall. intros [ifaceName netStat] _.
  apply interface_stat_fields.
Qed.

(** The error of a missing container is not a typed one: the provider builds
    it with [fmt.Errorf], like its other errors. *)
Lemma errorf_is_untyped (msg : string) : ¬ typed (Some (Errorf msg)).
Proof. intros (ev & name & [= <-] & Hty). discriminate Hty. Qed.

(** C4, as amended: for an id absent from the prefetched map every accessor
    returns, with a zero result, the error that [fmt.Errorf] builds from
    ["container not found"], an untyped error known by its message, and
    [ContainerExists] is false.  For an id that is present [ContainerExists]
    is true and the accessors return what the stored bundle holds, with a
    [nil] error: the start time, the metrics and the limits as stored, and
    from [GetNetworkMetrics], whatever order its range takes, one entry per
    stored interface with that interface's sent and received bytes and
    packets, under the network name given for the interface or else under
    the interface's own name. *)
Theorem accessors_by_presence (mp : provider) (containerID : string)
  (networks : gmap string string) :
  (containers mp !! containerID = None →
     ContainerExists mp containerID = false
     ∧ GetContainerStartTime mp containerID = (0, Some (Errorf "container not found"))
     ∧ GetContainerMetrics mp containerID = (None, Some (Errorf "container not found"))
     ∧ GetContainerLimits mp containerID = (None, Some (Errorf "container not found"))
     ∧ GetNetworkMetrics mp containerID networks
         = (None, Some (Errorf "container not found"))
     ∧ (∀ range, GetNetworkMetricsIn range mp containerID networks
                 = (None, Some (Errorf "container not found")))
     ∧ dynamic_type (Errorf "container not found") = errorString
     ∧ ¬ typed (Some (Errorf "container not found")))
  ∧ (∀ b : containerBundle, containers mp !! containerID = Some b →
     ContainerExists mp containerID = true
     ∧ GetContainerStartTime mp containerID = (startTime b, None)
     ∧ GetContainerMetrics mp containerID = (metrics b, None)
     ∧ GetContainerLimits mp containerID = (limits b, None)
     ∧ GetNetworkMetrics mp containerID networks
       = GetNetworkMetricsIn map_to_list mp containerID networks
     ∧ ∀ range, visits_every_entry range →
         ∃ netStats : list InterfaceNetStats,
           GetNetworkMetricsIn range mp containerID networks = (Some netStats, None)
           ∧ length netStats = size (networkMetrics b)
           ∧ netStats
             ≡ₚ (λ '(ifaceName, netStat),
                   {| NetworkName := default ifaceName (networks !! ifaceName);
                      BytesSent := TxBytes netStat;
                      BytesRcvd := RxBytes netStat;
                      PacketsSent := TxPackets netStat;
                      PacketsRcvd := RxPackets netStat |})
                <$> map_to_list (networkMetrics b)).
Proof.
  unfold ContainerExists, GetContainerStartTime, GetContainerMetrics,
    GetContainerLimits, GetNetworkMetrics, GetNetworkMetricsIn, not_found.
  split.
  - intros ->. split_and!; try done. apply errorf_is_untyped.
  - intros b ->. split_and!; try done.
    intros range Hrange. eexists. split; [reflexivity|].
    pose proof (network_range_entries networks (networkMetrics b)
                  (range (networkMetrics b)) (Hrange _)) as Hentries.
    split; [|exact Hentries].
    by rewrite Hentries, length_fmap, length_map_to_list.
Qed.

Lemma accessors_by_presence_witness :
  GetContainerMetrics one_container "db" = (None, Some (Errorf "container not found"))
  ∧ GetContainerStartTime one_container "web" = (1650000000, None)
  ∧ ∃ netStats,
      GetNetworkMetricsIn backwards gateway_container "gw" {[ "eth1" := "bridge" ]}
      = (Some netStats, None)
      ∧ netStats
        ≡ₚ [ {| NetworkName := "bridge"; BytesSent := 400; BytesRcvd := 300;
                PacketsSent := 4; PacketsRcvd := 3 |};
             {| NetworkName := "eth0"; BytesSent := 20; BytesRcvd := 10;
                PacketsSent := 2; PacketsRcvd := 1 |} ].
Proof.
  split; [|split].
  - destruct (accessors_by_presence one_container "db" ∅) as [Habsent _].
    apply Habsent. reflexivity.
  - destruct (accessors_by_presence one_container "web" ∅) as [_ Hpresent].
    apply (Hpresent web_bundle). reflexivity.
  - destruct (accessors_by_presence gateway_container "gw" {[ "eth1" := "bridge" ]})
      as [_ Hpresent].
    destruct (Hpresent two_interfaces eq_refl) as (_ & _ & _ & _ & _ & Hnet).
    destruct (Hnet backwards) as (netStats & Hrun & _ & Hentries).
    + intros m. unfold backwards. apply reverse_Permutation.
    + exists netStats. split; [exact Hrun|]. exact Hentries.
Defined.

(** C4, as first stated, fails on the word typed: for the absent id ["db"]
    the accessors return an error whose dynamic type is the generic one of
    [fmt.Errorf], the same as that of the unrelated error of
    [ContainerIDForPID]; only the message tells them apart. *)
Lemma not_found_error_is_untyped :
  containers one_container !! "db" = None
  ∧ snd (GetContainerMetrics one_container "db") = Some (Errorf "container not found")
  ∧ ¬ typed (snd (GetContainerStartTime one_container "db"))
  ∧ ¬ typed (snd (GetContainerMetrics one_container "db"))
  ∧ ¬ typed (snd (GetContainerLimits one_container "db"))
  ∧ ¬ typed (snd (GetNetworkMetrics one_container "db" ∅))
  ∧ (dynamic_type <$> snd (GetContainerMetrics one_container "db"))
    = (dynamic_type <$> snd (ContainerIDForPID one_container 4242)).
Proof.
  split_and!; try reflexivity; apply errorf_is_untyped.
Qed.

(** C8: [user] is a [uint64], so the test [user < 0] never succeeds; when
    the kernel time in jiffies exceeds the total, [user] is the difference
    wrapped modulo [2^64], a positive value, and that value is what is
    stored as the user CPU time. *)
Theorem user_cpu_time_wraps (stats : StatsJSON) (b : containerBundle) :
  is_uint64 (UsageInKernelmode stats) →
  is_uint64 (TotalUsage stats) →
  let kernel := UsageInKernelmode stats `div` 100000 in
  let total := TotalUsage stats `div` 100000 in
  (uint64_sub (uint64_div (TotalUsage stats) 100000)
     (uint64_div (UsageInKernelmode stats) 100000) <? 0) = false
  ∧ (total < kernel →
     cpu_jiffies stats = (2 ^ 64 + total - kernel, kernel, total)
     ∧ 0 < 2 ^ 64 + total - kernel
     ∧ (CPU <$> metrics (fillContainerMetrics stats b))
         = Some (Some {| User := float64_of_int (2 ^ 64 + total - kernel);
                         System := float64_of_int kernel;
                         UsageTotal := float64_of_int total |})).
Proof.
  intros Hk Ht kernel total.
  assert (Hnonneg : (uint64_sub (uint64_div (TotalUsage stats) 100000)
            (uint64_div (UsageInKernelmode stats) 100000) <? 0) = false).
  { apply Z.ltb_ge. unfold uint64_sub. apply uint64_wrap_nonneg. }
  split; [exact Hnonneg|]. intros Hlt.
  assert (Hkr : is_uint64 kernel) by (apply div_is_uint64; [done|lia]).
  assert (Htr : is_uint64 total) by (apply div_is_uint64; [done|lia]).
  assert (Hj : cpu_jiffies stats = (2 ^ 64 + total - kernel, kernel, total)).
  { unfold cpu_jiffies. rewrite Hnonneg.
    rewrite !uint64_div_small by (done || lia). fold kernel total.
    by rewrite uint64_sub_borrow. }
  split; [exact Hj|]. split.
  - unfold is_uint64, max_uint64 in *. lia.
  - unfold fillContainerMetrics. rewrite Hj. reflexivity.
Qed.

Lemma user_cpu_time_wraps_witness :
  cpu_jiffies kernel_heavy = (2 ^ 64 - 2, 3, 1).
Proof.
  destruct (user_cpu_time_wraps kernel_heavy web_bundle) as [_ H].
  - unfold is_uint64, max_uint64; simpl; lia.
  - unfold is_uint64, max_uint64; simpl; lia.
  - destruct H as [H _]; [reflexivity|]. exact H.
Defined.

(** C10: [GetPIDs] returns a [nil] slice and a [nil] error for every
    container id, while [ContainerIDForPID] returns the error
    ["not supported on windows"] for every pid. *)
Theorem pid_listing_unimplemented (mp : provider) (containerID : string) (pid : Z) :
  GetPIDs mp containerID = (None, None)
  ∧ ∃ err : error_value,
      ContainerIDForPID mp pid = ("", Some err)
      ∧ Error err = "not supported on windows".
Proof.
  split; [reflexivity|].
  exists (Errorf "not supported on windows"). split; reflexivity.
Qed.

End Accessors.

(** ** The Windows container provider: prefetch *)
Section PrefetchFacts.
Import GoInt Go Windows Samples.
Context (env : Env) (dockerUtil : DockerUtil).

Lemma for_range_cons {A St} (body : A → St → Logged St) (x : A) (xs : list A) (st : St) :
  for_range body (x :: xs) st
  = (fst (for_range body xs (fst (body x st))),
     snd (body x st) ++ snd (for_range body xs (fst (body x st)))).
Proof.
  cbn [for_range]. unfold bind. destruct (body x st) as [st1 t1]. cbn [fst snd].
  by destruct (for_range body xs st1) as [st2 t2].
Qed.

Lemma container_eta (c : Container) : {| ID := ID c |} = c.
Proof. by destruct c. Qed.

(** One iteration binds the container's id to its bundle and keeps the log
    of the inspection. *)
Lemma fetch_container_step (c : Container) (st : fetch) :
  fetch_containers (fst (fetch_container env dockerUtil c st))
  = <[ID c := stored_bundle env dockerUtil (ID c)]> (fetch_containers st)
  ∧ ∀ e, e ∈ snd (inspect_bundle env dockerUtil c) →
         e ∈ snd (fetch_container env dockerUtil c st).
Proof.
  unfold fetch_container, stored_bundle. rewrite container_eta.
  destruct (inspect_bundle env dockerUtil c) as [[b isAgent] t].
  cbn. split; [done|]. intros e He. apply elem_of_app. by left.
Qed.

Lemma fetched_nil (m : gmap string containerBundle) (t : trace) :
  fetched env dockerUtil [] m m t.
Proof.
  split.
  - intros id. rewrite decide_False; [done|]. cbn. apply not_elem_of_nil.
  - intros c e Hc. by apply not_elem_of_nil in Hc.
Qed.

Lemma fetched_app (xs ys : list Container) (m1 m2 m3 : gmap string containerBundle)
  (t1 t2 : trace) :
  fetched env dockerUtil xs m1 m2 t1 →
  fetched env dockerUtil ys m2 m3 t2 →
  fetched env dockerUtil (xs ++ ys) m1 m3 (t1 ++ t2).
Proof.
  intros [Hm1 Ht1] [Hm2 Ht2]. split.
  - intros id. rewrite Hm2, Hm1, fmap_app.
    destruct (decide (id ∈ ID <$> ys)) as [Hy|Hy], (decide (id ∈ ID <$> xs)) as [Hx|Hx];
      [rewrite decide_True by (apply elem_of_app; auto)..
      |rewrite decide_False by (rewrite elem_of_app; tauto)]; done.
  - intros c e Hc He. apply elem_of_app in Hc. apply elem_of_app.
    destruct Hc; [left|right]; eauto.
Qed.

Lemma fetched_log_mono (xs : list Container) (m m' : gmap string containerBundle)
  (t0 t t1 : trace) :
  fetched env dockerUtil xs m m' t → fetched env dockerUtil xs m m' (t0 ++ t ++ t1).
Proof.
  intros [Hm Ht]. split; [done|].
  intros c e Hc He. rewrite !elem_of_app. right. left. eauto.
Qed.

Lemma fetched_one (c : Container) (st : fetch) :
  fetched env dockerUtil [c] (fetch_containers st)
    (fetch_containers (fst (fetch_container env dockerUtil c st)))
    (snd (fetch_container env dockerUtil c st)).
Proof.
  destruct (fetch_container_step c st) as [Hm Ht]. split.
  - intros id. rewrite Hm. cbn. case_decide as Hid.
    + apply list_elem_of_singleton in Hid as ->. apply lookup_insert_eq.
    + apply lookup_insert_ne. intros <-. apply Hid. by apply list_elem_of_singleton.
  - intros c' e Hc%list_elem_of_singleton He. subst c'. by apply Ht.
Qed.

(** The loop over a chunk records every container of the chunk. *)
Lemma for_range_fetched (xs : list Container) (st : fetch) :
  fetched env dockerUtil xs (fetch_containers st)
    (fetch_containers (fst (for_range (fetch_container env dockerUtil) xs st)))
    (snd (for_range (fetch_container env dockerUtil) xs st)).
Proof.
  revert st. induction xs as [|c xs IH]; intros st.
  - apply fetched_nil.
  - rewrite for_range_cons. cbn [fst snd].
    apply (fetched_app [c] xs _ _ _ _ _ (fetched_one c st)). apply IH.
Qed.

(** The map reached does not depend on the order in which the containers
    were taken, nor on how they were cut into chunks. *)
Lemma fetched_perm (xs ys : list Container) (m m' : gmap string containerBundle)
  (t : trace) :
  xs ≡ₚ ys → fetched env dockerUtil xs m m' t → fetched env dockerUtil ys m m' t.
Proof.
  intros Hperm [Hm Ht]. split.
  - intros id. rewrite Hm.
    destruct (decide (id ∈ ID <$> xs)) as [Hx|Hx], (decide (id ∈ ID <$> ys)) as [Hy|Hy];
      try done; exfalso; rewrite Hperm in Hx; contradiction.
  - intros c e Hc. rewrite <- Hperm in Hc. by apply Ht.
Qed.

Lemma fetched_same_map (xs : list Container) (m m1 m2 : gmap string containerBundle)
  (t1 t2 : trace) :
  fetched env dockerUtil xs m m1 t1 → fetched env dockerUtil xs m m2 t2 → m1 = m2.
Proof.
  intros [Hm1 _] [Hm2 _]. apply map_eq. intros id. by rewrite Hm1, Hm2.
Qed.

Lemma chunk_size_positive (len : Z) : 1 ≤ len → 1 ≤ chunk_size len.
Proof.
  unfold chunk_size. intros Hlen.
  destruct (Z.leb_spec (len `quot` 8) 1); lia.
Qed.

(** A chunk and what follows it make up the rest of the list. *)
Lemma slice_then_rest {A} (xs : list A) (chunkSize i : Z) :
  0 ≤ i < Z.of_nat (length xs) → 1 ≤ chunkSize →
  let len := Z.of_nat (length xs) in
  let end_ := if len <? i + chunkSize then len else i + chunkSize in
  drop (Z.to_nat i) xs = slice xs i end_ ++ drop (Z.to_nat (i + chunkSize)) xs.
Proof.
  intros Hi Hcs len end_. subst end_ len. unfold slice.
  destruct (Z.ltb_spec (Z.of_nat (length xs)) (i + chunkSize)) as [Hlast|Hinner].
  - rewrite take_ge by (rewrite length_drop; lia).
    rewrite (drop_ge xs (Z.to_nat (i + chunkSize))) by lia.
    by rewrite app_nil_r.
  - replace (Z.to_nat (i + chunkSize)) with (Z.to_nat i + Z.to_nat chunkSize)%nat by lia.
    rewrite <- drop_drop.
    replace (Z.to_nat (i + chunkSize - i)) with (Z.to_nat chunkSize) by lia.
    by rewrite take_drop.
Qed.

Section Loop.
Context (rawContainers : list Container) (chunkSize : Z).

(** One goroutine records the containers of its chunk. *)
Lemma fetch_chunk_fetched (start : Z) (st : fetch) :
  let len := Z.of_nat (length rawContainers) in
  let end_ := if len <? start + chunkSize then len else start + chunkSize in
  fetched env dockerUtil (slice rawContainers start end_) (fetch_containers st)
    (fetch_containers (fst (fetch_chunk env dockerUtil rawContainers chunkSize start st)))
    (snd (fetch_chunk env dockerUtil rawContainers chunkSize start st)).
Proof.
  intros len end_. unfold fetch_chunk. fold len. fold end_.
  set (st0 := {| fetch_agentCID := fetch_agentCID st;
                 fetch_aliased := false;
                 fetch_containers := fetch_containers st |}).
  pose proof (for_range_fetched (slice rawContainers start end_) st0) as Hrange.
  unfold bind, log, ret.
  destruct (for_range (fetch_container env dockerUtil) (slice rawContainers start end_) st0)
    as [st' t].
  cbn [fst snd] in *. by apply fetched_log_mono.
Qed.

(** The loop over the chunks comes to its end within the fuel it is given
    and records every container from index [i] on. *)
Lemma fetch_loop_fetched (fuel : nat) (i : Z) (st : fetch) :
  0 ≤ i →
  (1 ≤ Z.of_nat (length rawContainers) → 1 ≤ chunkSize) →
  Z.of_nat (length rawContainers) - i ≤ Z.of_nat fuel →
  ∃ (st' : fetch) (t : trace),
    fetch_loop fuel env dockerUtil rawContainers chunkSize i st = Some (st', t)
    ∧ fetched env dockerUtil (drop (Z.to_nat i) rawContainers)
        (fetch_containers st) (fetch_containers st') t.
Proof.
  revert i st. induction fuel as [|fuel IH]; intros i st Hi Hcs Hfuel.
  - exists st, []. cbn [fetch_loop].
    destruct (Z.ltb_spec i (Z.of_nat (length rawContainers))); [lia|].
    split; [done|]. rewrite drop_ge by lia. apply fetched_nil.
  - cbn [fetch_loop].
    destruct (Z.ltb_spec i (Z.of_nat (length rawContainers))) as [Hlt|Hge].
    + pose proof (fetch_chunk_fetched i st) as Hchunk. cbn zeta in Hchunk.
      destruct (fetch_chunk env dockerUtil rawContainers chunkSize i st) as [st1 t1].
      cbn [fst snd] in Hchunk.
      destruct (IH (i + chunkSize) st1) as (st2 & t2 & -> & Hrest); [lia|done|lia|].
      exists st2, (t1 ++ t2). split; [done|].
      rewrite (slice_then_rest rawContainers chunkSize i) by lia.
      by apply fetched_app with (fetch_containers st1).
    + exists st, []. split; [done|]. rewrite drop_ge by lia. apply fetched_nil.
Qed.

End Loop.

End PrefetchFacts.

Section PrefetchSpec.
Import GoInt Go Windows Samples.

(** A failed inspect is logged and leaves the details of the bundle unset. *)
Lemma inspect_failure_logged (env : Env) (d : DockerUtil) (c : Container)
  (err : error_value) :
  Inspect d (ID c) = inr err →
  Log Info "Impossible to inspect container %s: %v" [AStr (ID c); AErr (Some err)]
    ∈ snd (inspect_bundle env d c)
  ∧ limits (stored_bundle env d (ID c)) = None
  ∧ startTime (stored_bundle env d (ID c)) = 0.
Proof.
  intros Hinspect. unfold stored_bundle. rewrite container_eta.
  unfold inspect_bundle. rewrite Hinspect.
  destruct (GetContainerStats d (ID c)) as [[stats|] [e|]]; cbn;
    (split; [set_solver|done]).
Qed.

(** Unreadable statistics are logged and leave the metrics of the bundle
    unset. *)
Lemma stats_failure_logged (env : Env) (d : DockerUtil) (c : Container) :
  (∀ stats, GetContainerStats d (ID c) ≠ (Some stats, None)) →
  Log Info "Impossible to get stats for container %s: %v"
      [AStr (ID c); AErr (snd (GetContainerStats d (ID c)))]
    ∈ snd (inspect_bundle env d c)
  ∧ metrics (stored_bundle env d (ID c)) = None
  ∧ networkMetrics (stored_bundle env d (ID c)) = ∅.
Proof.
  intros Hstats. unfold stored_bundle. rewrite container_eta.
  unfold inspect_bundle, fillContainerDetails.
  destruct (GetContainerStats d (ID c)) as [[stats|] [e|]];
    try (by destruct (Hstats stats));
    destruct (Inspect d (ID c)) as [cjson|e'];
    try destruct (ParseRFC3339 env (State_StartedAt cjson));
    cbn; (split; [set_solver|done]).
Qed.

(** With a docker client and a container list, [Prefetch] returns [nil] and
    publishes the map built from the empty one over the whole list. *)
Lemma prefetch_listed (env : Env) (mp : provider) (d : DockerUtil)
  (rawContainers : list Container) :
  GetDockerUtil env = inl d → RawContainerList d = inl rawContainers →
  ∃ (mp' : provider) (t t' : trace),
    Prefetch env mp = Some ((mp', None), t)
    ∧ fetched env d rawContainers ∅ (containers mp') t'
    ∧ ∀ e, e ∈ t' → e ∈ t.
Proof.
  intros Hd Hraw. unfold Prefetch. rewrite Hd, Hraw.
  set (st := {| fetch_agentCID := agentCID mp; fetch_aliased := false;
                fetch_containers := ∅ |}).
  destruct (fetch_loop_fetched env d rawContainers
              (chunk_size (Z.of_nat (length rawContainers)))
              (length rawContainers) 0 st) as (st' & t' & -> & Hfetched);
    [lia|apply chunk_size_positive|lia|].
  eexists _, _, t'. split; [reflexivity|]. split; [exact Hfetched|].
  intros e He. cbn. rewrite app_nil_r, !elem_of_cons. auto.
Qed.

(** The published map is the one reached by taking the listed containers
    one by one in any order: the schedule of the goroutines does not show in
    it. *)
Lemma prefetch_order_independent (env : Env) (mp : provider) (d : DockerUtil)
  (rawContainers order : list Container) (st : fetch) :
  GetDockerUtil env = inl d → RawContainerList d = inl rawContainers →
  order ≡ₚ rawContainers → fetch_containers st = ∅ →
  ∃ (mp' : provider) (t : trace),
    Prefetch env mp = Some ((mp', None), t)
    ∧ containers mp'
      = fetch_containers (fst (for_range (fetch_container env d) order st)).
Proof.
  intros Hd Hraw Hperm Hempty.
  destruct (prefetch_listed env mp d rawContainers Hd Hraw)
    as (mp' & t & t' & Hrun & Hfetched & _).
  exists mp', t. split; [exact Hrun|].
  pose proof (for_range_fetched env d order st) as Horder.
  rewrite Hempty in Horder. apply (fetched_perm env d _ _ _ _ _ Hperm) in Horder.
  by apply (fetched_same_map env d _ _ _ _ _ _ Hfetched Horder).
Qed.

(** [Prefetch] returns in every environment. *)
Lemma prefetch_returns (env : Env) (mp : provider) : is_Some (Prefetch env mp).
Proof.
  destruct (GetDockerUtil env) as [d|err] eqn:Hd.
  - destruct (RawContainerList d) as [rawContainers|err] eqn:Hraw.
    + by destruct (prefetch_listed env mp d rawContainers) as (mp' & t & _ & -> & _).
    + unfold Prefetch. by rewrite Hd, Hraw.
  - unfold Prefetch. by rewrite Hd.
Qed.

(** The test on [user] never succeeds: [user] is what the subtraction
    gives. *)
Lemma cpu_jiffies_unclamped (stats : StatsJSON) :
  cpu_jiffies stats
  = (uint64_sub (uint64_div (TotalUsage stats) 100000)
       (uint64_div (UsageInKernelmode stats) 100000),
     uint64_div (UsageInKernelmode stats) 100000,
     uint64_div (TotalUsage stats) 100000).
Proof.
  unfold cpu_jiffies.
  destruct (Z.ltb_spec (uint64_sub (uint64_div (TotalUsage stats) 100000)
                          (uint64_div (UsageInKernelmode stats) 100000)) 0) as [Hneg|];
    [|done].
  unfold uint64_sub in Hneg.
  pose proof (uint64_wrap_nonneg (uint64_div (TotalUsage stats) 100000
                                  - uint64_div (UsageInKernelmode stats) 100000)).
  lia.
Qed.

(** What an inspection that succeeds leaves in the bundle: the limits read
    from the host configuration and the start time, or 0 when the time
    cannot be parsed. *)
Lemma stored_bundle_inspected (env : Env) (d : DockerUtil) (id : string)
  (cjson : ContainerJSON) :
  Inspect d id = inl cjson →
  limits (stored_bundle env d id)
  = Some {| CPULimit :=
              if 0 <? HostConfig_NanoCPUs cjson then
                float64_mul
                  (float64_div (float64_of_int (HostConfig_NanoCPUs cjson))
                     (float64_of_int 1000000000))
                  (float64_of_int 100)
              else if 0 <? HostConfig_CPUPercent cjson then
                float64_mul (float64_of_int (HostConfig_CPUPercent cjson))
                  (float64_of_int (NumCPU env))
              else if 0 <? HostConfig_CPUCount cjson then
                float64_mul (float64_of_int (HostConfig_CPUCount cjson))
                  (float64_of_int 100)
              else float64_of_int 0;
            MemLimit := uint64_wrap (HostConfig_Memory cjson) |}
  ∧ startTime (stored_bundle env d id)
    = match ParseRFC3339 env (State_StartedAt cjson) with
      | inl unix => unix
      | inr _ => 0
      end.
Proof.
  intros Hinspect.
  unfold stored_bundle, inspect_bundle, fillContainerDetails. cbn [ID].
  rewrite Hinspect.
  destruct (ParseRFC3339 env (State_StartedAt cjson)) as [unix|perr];
    destruct (GetContainerStats d id) as [[stats|] [serr|]]; by cbn.
Qed.

(** What statistics that could be read leave in the bundle: the CPU times in
    jiffies, the memory and I/O counters, and the network statistics. *)
Lemma stored_bundle_stats (env : Env) (d : DockerUtil) (id : string)
  (stats : StatsJSON) :
  GetContainerStats d id = (Some stats, None) →
  metrics (stored_bundle env d id)
  = Some {| CPU :=
              Some {| User :=
                        float64_of_int
                          (uint64_sub (uint64_div (TotalUsage stats) 100000)
                             (uint64_div (UsageInKernelmode stats) 100000));
                      System :=
                        float64_of_int (uint64_div (UsageInKernelmode stats) 100000);
                      UsageTotal :=
                        float64_of_int (uint64_div (TotalUsage stats) 100000) |};
            Memory :=
              Some {| RSS := PrivateWorkingSet stats;
                      mem_PrivateWorkingSet := PrivateWorkingSet stats;
                      CommitBytes := Commit stats;
                      CommitPeakBytes := CommitPeak stats |};
            IO :=
              Some {| ReadBytes := ReadSizeBytes stats;
                      WriteBytes := WriteSizeBytes stats |} |}
  ∧ networkMetrics (stored_bundle env d id) = Networks stats.
Proof.
  intros Hstats.
  unfold stored_bundle, inspect_bundle, fillContainerDetails,
    fillContainerNetworkMetrics, fillContainerMetrics. cbn [ID].
  rewrite Hstats, cpu_jiffies_unclamped.
  destruct (Inspect d id) as [cjson|err];
    try destruct (ParseRFC3339 env (State_StartedAt cjson)) as [unix|perr]; by cbn.
Qed.

(** C5: [Prefetch] always returns.  It returns an error exactly when the
    docker client cannot be obtained or the containers cannot be listed.
    Otherwise it returns [nil] and publishes an entry for every listed
    container, also for one whose inspection or statistics failed: the
    failure is logged, the part it would have filled stays unset, and every
    container is processed all the same, whatever happened to the others: an
    inspection that succeeds stores the limits and the start time of that
    container, and statistics that could be read store its CPU, memory and
    I/O metrics and its network statistics. *)
Theorem prefetch_skips_failed_items (env : Env) (mp : provider) :
  is_Some (Prefetch env mp)
  ∧ (∀ err : error_value,
       (∃ mp' t, Prefetch env mp = Some ((mp', Some err), t))
       ↔ (GetDockerUtil env = inr err
          ∨ ∃ d, GetDockerUtil env = inl d ∧ RawContainerList d = inr err))
  ∧ (∀ (d : DockerUtil) (rawContainers : list Container),
       GetDockerUtil env = inl d →
       RawContainerList d = inl rawContainers →
       ∃ (mp' : provider) (t : trace),
         Prefetch env mp = Some ((mp', None), t)
         ∧ (∀ id : string,
              containers mp' !! id
              = if decide (id ∈ ID <$> rawContainers)
                then Some (stored_bundle env d id) else None)
         ∧ (∀ c, c ∈ rawContainers → is_Some (containers mp' !! ID c))
         ∧ (∀ c err, c ∈ rawContainers → Inspect d (ID c) = inr err →
              Log Info "Impossible to inspect container %s: %v"
                  [AStr (ID c); AErr (Some err)] ∈ t
              ∧ ∃ b, containers mp' !! ID c = Some b
                     ∧ limits b = None ∧ startTime b = 0)
         ∧ (∀ c, c ∈ rawContainers →
              (∀ stats, GetContainerStats d (ID c) ≠ (Some stats, None)) →
              Log Info "Impossible to get stats for container %s: %v"
                  [AStr (ID c); AErr (snd (GetContainerStats d (ID c)))] ∈ t
              ∧ ∃ b, containers mp' !! ID c = Some b
                     ∧ metrics b = None ∧ networkMetrics b = ∅)
         ∧ (∀ c cjson, c ∈ rawContainers → Inspect d (ID c) = inl cjson →
              ∃ b, containers mp' !! ID c = Some b
                ∧ limits b
                  = Some {| CPULimit :=
                              if 0 <? HostConfig_NanoCPUs cjson then
                                float64_mul
                                  (float64_div
                                     (float64_of_int (HostConfig_NanoCPUs cjson))
                                     (float64_of_int 1000000000))
                                  (float64_of_int 100)
                              else if 0 <? HostConfig_CPUPercent cjson then
                                float64_mul
                                  (float64_of_int (HostConfig_CPUPercent cjson))
                                  (float64_of_int (NumCPU env))
                              else if 0 <? HostConfig_CPUCount cjson then
                                float64_mul
                                  (float64_of_int (HostConfig_CPUCount cjson))
                                  (float64_of_int 100)
                              else float64_of_int 0;
                            MemLimit := uint64_wrap (HostConfig_Memory cjson) |}
                ∧ startTime b
                  = match ParseRFC3339 env (State_StartedAt cjson) with
                    | inl unix => unix
                    | inr _ => 0
                    end)
         ∧ (∀ c stats, c ∈ rawContainers →
              GetContainerStats d (ID c) = (Some stats, None) →
              ∃ b, containers mp' !! ID c = Some b
                ∧ metrics b
                  = Some {| CPU :=
                              Some {| User :=
                                        float64_of_int
                                          (uint64_sub
                                             (uint64_div (TotalUsage stats) 100000)
                                             (uint64_div (UsageInKernelmode stats)
                                                100000));
                                      System :=
                                        float64_of_int
                                          (uint64_div (UsageInKernelmode stats) 100000);
                                      UsageTotal :=
                                        float64_of_int
                                          (uint64_div (TotalUsage stats) 100000) |};
                            Memory :=
                              Some {| RSS := PrivateWorkingSet stats;
                                      mem_PrivateWorkingSet := PrivateWorkingSet stats;
                                      CommitBytes := Commit stats;
                                      CommitPeakBytes := CommitPeak stats |};
                            IO :=
                              Some {| ReadBytes := ReadSizeBytes stats;
                                      WriteBytes := WriteSizeBytes stats |} |}
                ∧ networkMetrics b = Networks stats)).
Proof.
  pose proof (prefetch_listed env mp) as Hlisted.
  split; [apply prefetch_returns|split].
  - intros err. split.
    + intros (mp' & t & Hrun).
      destruct (GetDockerUtil env) as [d|err'] eqn:Hd.
      * right. exists d. split; [done|].
        destruct (RawContainerList d) as [rawContainers|err'] eqn:Hraw.
        -- destruct (Hlisted d rawContainers) as (? & ? & ? & Hrun' & _); [done..|].
           congruence.
        -- unfold Prefetch in Hrun. rewrite Hd, Hraw in Hrun.
           unfold ret in Hrun. congruence.
      * left. unfold Prefetch in Hrun. rewrite Hd in Hrun.
        unfold ret in Hrun. congruence.
    + intros [Hd|(d & Hd & Hraw)]; exists mp, []; unfold Prefetch.
      * by rewrite Hd.
      * by rewrite Hd, Hraw.
  - intros d rawContainers Hd Hraw.
    destruct (Hlisted d rawContainers Hd Hraw) as (mp' & t & t' & Hrun & [Hmap Hlog] & Hsub).
    assert (Hentry : ∀ c, c ∈ rawContainers →
              containers mp' !! ID c = Some (stored_bundle env d (ID c))).
    { intros c Hc. rewrite Hmap, decide_True; [done|]. by apply list_elem_of_fmap_2. }
    exists mp', t. split; [exact Hrun|]. split_and!.
    + intros id. rewrite Hmap. by rewrite lookup_empty.
    + intros c Hc. rewrite Hentry by done. by eexists.
    + intros c err Hc Hinspect.
      destruct (inspect_failure_logged env d c err Hinspect) as (Hl & Hlimits & Hstart).
      split; [by eapply Hsub, Hlog|]. rewrite Hentry by done. by eexists.
    + intros c Hc Hstats.
      destruct (stats_failure_logged env d c Hstats) as (Hl & Hmetrics & Hnet).
      split; [by eapply Hsub, Hlog|]. rewrite Hentry by done. by eexists.
    + intros c cjson Hc Hinspect. rewrite Hentry by done.
      eexists. split; [reflexivity|]. by apply stored_bundle_inspected.
    + intros c stats Hc Hstats. rewrite Hentry by done.
      eexists. split; [reflexivity|]. by apply stored_bundle_stats.
Qed.

Lemma prefetch_skips_failed_items_witness :
  ∃ (mp' : provider) (t : trace),
    Prefetch flaky_env new_provider = Some ((mp', None), t)
    ∧ is_Some (containers mp' !! "db")
    ∧ is_Some (containers mp' !! "web")
    ∧ is_Some (containers mp' !! "agent")
    ∧ (∃ b, containers mp' !! "db" = Some b
            ∧ limits b = None
            ∧ (Memory <$> metrics b)
              = Some (Some {| RSS := 4096; mem_PrivateWorkingSet := 4096;
                              CommitBytes := 8192; CommitPeakBytes := 8192 |}))
    ∧ (∃ b, containers mp' !! "web" = Some b
            ∧ metrics b = None
            ∧ (MemLimit <$> limits b) = Some 1073741824
            ∧ startTime b = 1650000000).
Proof.
  destruct (prefetch_skips_failed_items flaky_env new_provider) as (_ & _ & H).
  destruct (H flaky_docker three_containers eq_refl eq_refl)
    as (mp' & t & Hrun & _ & Hall & Hnoinspect & Hnostats & Hinspect & Hstats).
  assert (Hdb : {| ID := "db" |} ∈ three_containers)
    by (unfold three_containers; repeat constructor).
  assert (Hweb : {| ID := "web" |} ∈ three_containers)
    by (unfold three_containers; repeat constructor).
  assert (Hagent : {| ID := "agent" |} ∈ three_containers)
    by (unfold three_containers; repeat constructor).
  exists mp', t. split; [exact Hrun|].
  split_and!.
  - apply (Hall _ Hdb).
  - apply (Hall _ Hweb).
  - apply (Hall _ Hagent).
  - destruct (Hnoinspect _ (Errorf "No such container") Hdb eq_refl)
      as (_ & b & Hb & Hlimits & _).
    destruct (Hstats _ kernel_heavy Hdb eq_refl) as (b' & Hb' & Hmetrics & _).
    exists b. split; [exact Hb|]. split; [exact Hlimits|].
    cbn [ID] in Hb, Hb'. rewrite Hb in Hb'. injection Hb' as <-.
    rewrite Hmetrics. reflexivity.
  - destruct (Hnostats _ Hweb) as (_ & b & Hb & Hmetrics & _).
    { intros stats. discriminate. }
    destruct (Hinspect _ _ Hweb eq_refl) as (b' & Hb' & Hlimits & Hstart).
    exists b. split; [exact Hb|]. split; [exact Hmetrics|].
    cbn [ID] in Hb, Hb'. rewrite Hb in Hb'. injection Hb' as <-.
    rewrite Hlimits, Hstart. split; reflexivity.
Defined.

(** The run on the three sample containers: the bundle of ["db"] has its
    metrics only, the one of ["web"] its details only. *)
Example prefetch_flaky_run :
  (λ r, (snd (fst r),
         agentCID (fst (fst r)),
         metrics <$> containers (fst (fst r)) !! "web",
         limits <$> containers (fst (fst r)) !! "db",
         startTime <$> containers (fst (fst r)) !! "agent",
         size (containers (fst (fst r)))))
    <$> Prefetch flaky_env new_provider
  = Some (None, Some "agent", Some None, Some None, Some 1650000000, 3%nat).
Proof. vm_compute. reflexivity. Qed.

(** Seventeen containers are fetched in nine chunks of two; all of them are
    recorded although none could be inspected. *)
Example prefetch_seventeen_run :
  chunk_size 17 = 2
  ∧ (λ r, (snd (fst r), size (containers (fst (fst r)))))
      <$> Prefetch seventeen_env new_provider
    = Some (None, 17%nat).
Proof. split; vm_compute; reflexivity. Qed.

Example prefetch_no_docker_run :
  Prefetch no_docker_env one_container
  = Some ((one_container, Some (Errorf "docker not available")), []).
Proof. reflexivity. Qed.

(** With one variable per loop the pointer taken at the agent's container
    ends on the last container of the chunk. *)
Example agent_cid_per_loop :
  (λ r, agentCID (fst (fst r))) <$> Prefetch (agent_first_env PerLoop) new_provider
  = Some (Some "web").
Proof. vm_compute. reflexivity. Qed.

Example agent_cid_per_iteration :
  (λ r, agentCID (fst (fst r))) <$> Prefetch (agent_first_env PerIteration) new_provider
  = Some (Some "agent").
Proof. vm_compute. reflexivity. Qed.

(** C9: [GetAgentCID] returns, and its error is [nil] in every provider
    state.  When the id is unknown it forces one [Prefetch] and drops the
    error of that call; if the id is still unknown afterwards the result is
    the empty string, again with a [nil] error. *)
Theorem agent_cid_never_errors (env : Env) (mp : provider) :
  ∃ (mp' : provider) (cid : string) (t : trace),
    GetAgentCID env mp = Some ((mp', (cid, None)), t)
    ∧ cid = default "" (agentCID mp')
    ∧ (agentCID mp' = None → cid = "")
    ∧ (agentCID mp = None →
       ∃ (e : error) (t' : trace), Prefetch env mp = Some ((mp', e), t'))
    ∧ (is_Some (agentCID mp) → mp' = mp).
Proof.
  unfold GetAgentCID.
  destruct (agentCID mp) as [known|] eqn:Hknown.
  - exists mp, known, []. cbn. rewrite Hknown. cbn.
    split_and!; first [done | by eauto | by intros [? ?]].
  - destruct (prefetch_returns env mp) as [[[mp1 e] t1] Hrun].
    rewrite Hrun. cbn.
    destruct (agentCID mp1) as [found|] eqn:Hfound.
    + eexists mp1, found, _. rewrite Hfound. cbn.
      split_and!; first [done | by eauto | by intros [? ?]].
    + eexists mp1, "", _. rewrite Hfound. cbn.
      split_and!; first [done | by eauto | by intros [? ?]].
Qed.

Example agent_cid_no_docker :
  GetAgentCID no_docker_env new_provider
  = Some ((new_provider, ("", None)),
          [Log Info "AgentCID is empty, forcing a prefetch" []]).
Proof. reflexivity. Qed.

Example agent_cid_found :
  (λ r, snd (fst r)) <$> GetAgentCID flaky_env new_provider
  = Some ("agent", None).
Proof. vm_compute. reflexivity. Qed.

End PrefetchSpec.

(** ** The topology sizer: how the counts relate to the cores *)
Section SizerBudget.
Import GoInt Go Aggregator Samples.

(** The manual pipeline count after the guard on the configuration. *)
Lemma guarded_pipeline_count (configured : Z) :
  is_int configured →
  let p := if configured <=? 0 then 1 else configured in
  1 ≤ p ≤ max_int.
Proof.
  unfold is_int, min_int, max_int. intros Hc. cbn zeta.
  destruct (Z.leb_spec configured 0); lia.
Qed.

Lemma manual_run (cfg : Config) (vCPUs : Z) :
  GetBool cfg "dogstatsd_pipeline_autoadjust" = false →
  0 ≤ vCPUs ≤ max_int →
  is_int (GetInt cfg "dogstatsd_pipeline_count") →
  let configured := GetInt cfg "dogstatsd_pipeline_count" in
  let p := if configured <=? 0 then 1 else configured in
  fst (getDogStatsDWorkerAndPipelineCount cfg vCPUs) = (Z.max 2 (vCPUs - 1 - p), p)
  ∧ 1 ≤ p ≤ max_int.
Proof.
  intros Hmanual Hv Hc configured p.
  pose proof (guarded_pipeline_count configured Hc) as Hp. cbn zeta in Hp. fold p in Hp.
  split; [|exact Hp].
  unfold getDogStatsDWorkerAndPipelineCount. rewrite Hmanual. cbn [negb fst].
  fold configured. fold p. rewrite manual_no_wrap by done. f_equal.
  destruct (Z.ltb_spec (vCPUs - 1 - p) 2); lia.
Qed.

Lemma auto_run (cfg : Config) (vCPUs : Z) :
  GetBool cfg "dogstatsd_pipeline_autoadjust" = true →
  is_int vCPUs →
  let w := Z.max 2 (vCPUs `quot` 2) in
  fst (getDogStatsDWorkerAndPipelineCount cfg vCPUs) = (w, w - 1).
Proof.
  intros Hauto Hv w.
  pose proof (quot_2_is_int vCPUs Hv) as Hq.
  unfold getDogStatsDWorkerAndPipelineCount. rewrite Hauto. cbn [negb fst].
  unfold int_div. rewrite (int_wrap_id (vCPUs `quot` 2)) by done.
  assert (Hw : (if vCPUs `quot` 2 <? 2 then 2 else vCPUs `quot` 2) = w).
  { subst w. destruct (Z.ltb_spec (vCPUs `quot` 2) 2); lia. }
  rewrite Hw. unfold int_sub. rewrite int_wrap_id.
  - destruct (Z.leb_spec (w - 1) 0); [lia|done].
  - unfold is_int, min_int, max_int in *. lia.
Qed.

Lemma quot_2_bounds (z : Z) : 0 ≤ z → 2 * (z `quot` 2) ≤ z < 2 * (z `quot` 2) + 2.
Proof.
  intros Hz. rewrite Z.quot_div_nonneg by lia.
  pose proof (Z.div_mod z 2). pose proof (Z.mod_pos_bound z 2). lia.
Qed.

(** X1: in manual mode, when the host has at least [pipelineCount + 3]
    vCPUs, the listener, the pipelines and the workers take exactly one vCPU
    each: [workers + pipelines + 1 = vCPUs].  With fewer vCPUs the floor of
    two workers applies and more routines are run than there are vCPUs. *)
Theorem manual_mode_fills_the_cores (cfg : Config) (vCPUs : Z) :
  GetBool cfg "dogstatsd_pipeline_autoadjust" = false →
  0 ≤ vCPUs ≤ max_int →
  is_int (GetInt cfg "dogstatsd_pipeline_count") →
  let workers := fst (fst (getDogStatsDWorkerAndPipelineCount cfg vCPUs)) in
  let pipelines := snd (fst (getDogStatsDWorkerAndPipelineCount cfg vCPUs)) in
  (pipelines + 3 ≤ vCPUs → workers + pipelines + 1 = vCPUs)
  ∧ (vCPUs < pipelines + 3 → workers = 2 ∧ vCPUs < workers + pipelines + 1).
Proof.
  intros Hmanual Hv Hc.
  destruct (manual_run cfg vCPUs Hmanual Hv Hc) as [-> Hp]. cbn [fst snd].
  split; lia.
Qed.

Lemma manual_mode_fills_the_cores_witness :
  fst (fst (getDogStatsDWorkerAndPipelineCount (sizer_config false 3) 16))
  + snd (fst (getDogStatsDWorkerAndPipelineCount (sizer_config false 3) 16)) + 1 = 16.
Proof.
  refine (proj1 (manual_mode_fills_the_cores (sizer_config false 3) 16 _ _ _) _).
  - reflexivity.
  - unfold max_int. lia.
  - unfold is_int, min_int, max_int. simpl. lia.
  - simpl. lia.
Defined.

(** X2: in auto mode there is always exactly one pipeline fewer than
    workers; from 4 vCPUs on, the workers, the pipelines and the listener
    together take all the vCPUs, or all but one when their number is odd, and
    below 4 vCPUs the result is the floor of 2 workers and 1 pipeline. *)
Theorem auto_mode_one_pipeline_fewer (cfg : Config) (vCPUs : Z) :
  GetBool cfg "dogstatsd_pipeline_autoadjust" = true →
  is_int vCPUs →
  let workers := fst (fst (getDogStatsDWorkerAndPipelineCount cfg vCPUs)) in
  let pipelines := snd (fst (getDogStatsDWorkerAndPipelineCount cfg vCPUs)) in
  pipelines = workers - 1
  ∧ (4 ≤ vCPUs → vCPUs - 1 ≤ workers + pipelines + 1 ≤ vCPUs)
  ∧ (vCPUs < 4 → workers = 2 ∧ pipelines = 1).
Proof.
  intros Hauto Hv. rewrite (auto_run cfg vCPUs Hauto Hv). cbn [fst snd].
  split; [done|]. split.
  - intros H4. pose proof (quot_2_bounds vCPUs). lia.
  - intros H4. destruct (Z.le_gt_cases 0 vCPUs) as [Hpos|Hneg].
    + pose proof (quot_2_bounds vCPUs). lia.
    + assert (vCPUs `quot` 2 ≤ 0).
      { replace vCPUs with (- - vCPUs) by lia. rewrite Z.quot_opp_l by lia.
        pose proof (quot_2_bounds (- vCPUs)). lia. }
      lia.
Qed.

Lemma auto_mode_one_pipeline_fewer_witness :
  snd (fst (getDogStatsDWorkerAndPipelineCount (sizer_config true 1) 9))
  = fst (fst (getDogStatsDWorkerAndPipelineCount (sizer_config true 1) 9)) - 1.
Proof.
  refine (proj1 (auto_mode_one_pipeline_fewer (sizer_config true 1) 9 _ _)).
  - reflexivity.
  - unfold is_int, min_int, max_int. lia.
Defined.

(** X3: for a fixed configuration, a host with more vCPUs never gets fewer
    workers nor fewer pipelines, in either mode. *)
Theorem sizer_monotone (cfg : Config) (v1 v2 : Z) :
  is_int (GetInt cfg "dogstatsd_pipeline_count") →
  0 ≤ v1 → v1 ≤ v2 → v2 ≤ max_int →
  fst (fst (getDogStatsDWorkerAndPipelineCount cfg v1))
    ≤ fst (fst (getDogStatsDWorkerAndPipelineCount cfg v2))
  ∧ snd (fst (getDogStatsDWorkerAndPipelineCount cfg v1))
    ≤ snd (fst (getDogStatsDWorkerAndPipelineCount cfg v2)).
Proof.
  intros Hc H1 H12 H2.
  destruct (GetBool cfg "dogstatsd_pipeline_autoadjust") eqn:Hmode.
  - rewrite !auto_run by (done || (unfold is_int, min_int, max_int in *; lia)).
    cbn [fst snd].
    assert (v1 `quot` 2 ≤ v2 `quot` 2).
    { pose proof (quot_2_bounds v1). pose proof (quot_2_bounds v2). lia. }
    lia.
  - destruct (manual_run cfg v1) as [-> _]; [done|lia|done|].
    destruct (manual_run cfg v2) as [-> _]; [done|lia|done|].
    cbn [fst snd]. lia.
Qed.

Lemma sizer_monotone_witness :
  fst (fst (getDogStatsDWorkerAndPipelineCount (sizer_config false 2) 4))
    ≤ fst (fst (getDogStatsDWorkerAndPipelineCount (sizer_config false 2) 32)).
Proof.
  refine (proj1 (sizer_monotone (sizer_config false 2) 4 32 _ _ _ _)).
  - unfold is_int, min_int, max_int. simpl. lia.
  - lia.
  - lia.
  - unfold max_int. lia.
Defined.

End SizerBudget.

(** ** The Windows container provider: what a prefetch does to the state *)
Section FetchSteps.
Import GoInt Go Windows Observed Samples.
Context (env : Env) (dockerUtil : DockerUtil).

(** The flag computed while a container is inspected is the agent test. *)
Lemma inspect_bundle_flag (c : Container) :
  snd (fst (inspect_bundle env dockerUtil c)) = is_agent env dockerUtil c.
Proof.
  unfold inspect_bundle, is_agent, fillContainerDetails.
  destruct (Inspect dockerUtil (ID c)) as [cjson|err];
    try destruct (ParseRFC3339 env (State_StartedAt cjson)) as [unix|perr];
    destruct (GetContainerStats dockerUtil (ID c)) as [[stats|] [serr|]]; reflexivity.
Qed.

(** An inspection announces its container once. *)
Lemma inspect_bundle_announces (c : Container) :
  inspected_ids (snd (inspect_bundle env dockerUtil c)) = [ID c].
Proof.
  unfold inspect_bundle, fillContainerDetails.
  destruct (Inspect dockerUtil (ID c)) as [cjson|err];
    try destruct (ParseRFC3339 env (State_StartedAt cjson)) as [unix|perr];
    destruct (GetContainerStats dockerUtil (ID c)) as [[stats|] [serr|]]; reflexivity.
Qed.

Lemma fetch_container_unfold (c : Container) (st : fetch) :
  fetch_container env dockerUtil c st
  = ({| fetch_agentCID :=
          if is_agent env dockerUtil c then Some (ID c)
          else match loopvar env with
               | PerLoop => if fetch_aliased st then Some (ID c) else fetch_agentCID st
               | PerIteration => fetch_agentCID st
               end;
        fetch_aliased :=
          match loopvar env with
          | PerLoop => fetch_aliased st || is_agent env dockerUtil c
          | PerIteration => false
          end;
        fetch_containers :=
          <[ID c := stored_bundle env dockerUtil (ID c)]> (fetch_containers st) |},
     snd (inspect_bundle env dockerUtil c)
     ++ [Log Debug "Done inspecting %s" [AStr (ID c)]]).
Proof.
  unfold fetch_container, stored_bundle. rewrite container_eta.
  rewrite <- inspect_bundle_flag.
  destruct (inspect_bundle env dockerUtil c) as [[b isAgent] t]. reflexivity.
Qed.

Lemma inspected_ids_app (t1 t2 : trace) :
  inspected_ids (t1 ++ t2) = inspected_ids t1 ++ inspected_ids t2.
Proof. apply omap_app. Qed.

Lemma for_range_announces (xs : list Container) (st : fetch) :
  inspected_ids (snd (for_range (fetch_container env dockerUtil) xs st)) = ID <$> xs.
Proof.
  revert st. induction xs as [|c xs IH]; intros st; [done|].
  rewrite for_range_cons. cbn [snd]. rewrite inspected_ids_app, IH.
  rewrite fetch_container_unfold. cbn [snd].
  by rewrite inspected_ids_app, inspect_bundle_announces.
Qed.

(** The agent id and the alias flag after a loop with one variable for all
    its iterations: once the pointer aims at the variable, it shows the last
    container taken. *)
Lemma for_range_agent_per_loop (xs : list Container) (st : fetch) :
  loopvar env = PerLoop →
  let st' := fst (for_range (fetch_container env dockerUtil) xs st) in
  let hit := fetch_aliased st || existsb (is_agent env dockerUtil) xs in
  fetch_aliased st' = hit
  ∧ fetch_agentCID st'
    = match last xs with
      | Some l => if hit then Some (ID l) else fetch_agentCID st
      | None => fetch_agentCID st
      end.
Proof.
  intros Hlv. revert st. induction xs as [|c xs IH]; intros st.
  - cbn. by rewrite orb_false_r.
  - rewrite for_range_cons. cbn [fst].
    destruct (IH (fst (fetch_container env dockerUtil c st))) as [Hal Hag].
    cbn zeta in *. rewrite Hal, Hag, fetch_container_unfold, Hlv. cbn [fst fetch_aliased fetch_agentCID existsb].
    split; [by rewrite orb_assoc|].
    destruct xs as [|c' xs]; cbn [last existsb].
    + rewrite orb_false_r.
      by destruct (is_agent env dockerUtil c), (fetch_aliased st).
    + change (last (c :: c' :: xs)) with (last (c' :: xs)).
      destruct (last (c' :: xs)) as [l|] eqn:Hlast.
      * rewrite orb_assoc.
        by destruct (is_agent env dockerUtil c), (fetch_aliased st).
      * by apply last_None in Hlast.
Qed.

(** With one variable per iteration the agent id is the id of the last
    container taken that passes the agent test. *)
Lemma for_range_agent_per_iteration (xs : list Container) (st : fetch) :
  loopvar env = PerIteration →
  fetch_agentCID (fst (for_range (fetch_container env dockerUtil) xs st))
  = match last (filter (λ c, is_agent env dockerUtil c = true) xs) with
    | Some c => Some (ID c)
    | None => fetch_agentCID st
    end.
Proof.
  intros Hlv. revert st. induction xs as [|c xs IH]; intros st; [done|].
  rewrite for_range_cons. cbn [fst]. rewrite IH, fetch_container_unfold, Hlv.
  cbn [fst fetch_agentCID]. rewrite filter_cons.
  destruct (decide (is_agent env dockerUtil c = true)) as [Hc|Hc].
  - rewrite Hc.
    destruct (filter (λ c0, is_agent env dockerUtil c0 = true) xs) as [|c' cs] eqn:Hf; [done|].
    change (last (c :: c' :: cs)) with (last (c' :: cs)).
    destruct (last (c' :: cs)) eqn:Hlast; [done|]. by apply last_None in Hlast.
  - apply not_true_is_false in Hc. by rewrite Hc.
Qed.

End FetchSteps.

Section FetchLoop.
Import GoInt Go Windows Observed Samples.
Context (env : Env) (dockerUtil : DockerUtil).
Context (rawContainers : list Container) (chunkSize : Z).

(** A relation between the containers taken, the state before, the state
    after and the log, that holds of nothing taken, of every chunk, and of
    two runs one after the other. *)
Context (R : list Container → fetch → fetch → trace → Prop).
Hypothesis R_nil : ∀ st, R [] st st [].
Hypothesis R_app : ∀ xs ys st1 st2 st3 t1 t2,
  R xs st1 st2 t1 → R ys st2 st3 t2 → R (xs ++ ys) st1 st3 (t1 ++ t2).
Hypothesis R_chunk : ∀ start st,
  let len := Z.of_nat (length rawContainers) in
  let end_ := if len <? start + chunkSize then len else start + chunkSize in
  R (slice rawContainers start end_) st
    (fst (fetch_chunk env dockerUtil rawContainers chunkSize start st))
    (snd (fetch_chunk env dockerUtil rawContainers chunkSize start st)).

(** Such a relation holds of the whole loop over the chunks. *)
Lemma fetch_loop_invariant (fuel : nat) (i : Z) (st : fetch) :
  0 ≤ i →
  (1 ≤ Z.of_nat (length rawContainers) → 1 ≤ chunkSize) →
  Z.of_nat (length rawContainers) - i ≤ Z.of_nat fuel →
  ∃ (st' : fetch) (t : trace),
    fetch_loop fuel env dockerUtil rawContainers chunkSize i st = Some (st', t)
    ∧ R (drop (Z.to_nat i) rawContainers) st st' t.
Proof.
  revert i st. induction fuel as [|fuel IH]; intros i st Hi Hcs Hfuel.
  - exists st, []. cbn [fetch_loop].
    destruct (Z.ltb_spec i (Z.of_nat (length rawContainers))); [lia|].
    split; [done|]. rewrite drop_ge by lia. apply R_nil.
  - cbn [fetch_loop].
    destruct (Z.ltb_spec i (Z.of_nat (length rawContainers))) as [Hlt|Hge].
    + pose proof (R_chunk i st) as Hchunk. cbn zeta in Hchunk.
      destruct (fetch_chunk env dockerUtil rawContainers chunkSize i st) as [st1 t1].
      cbn [fst snd] in Hchunk.
      destruct (IH (i + chunkSize) st1) as (st2 & t2 & -> & Hrest); [lia|done|lia|].
      exists st2, (t1 ++ t2). split; [done|].
      rewrite (slice_then_rest rawContainers chunkSize i) by lia.
      by eapply R_app.
    + exists st, []. split; [done|]. rewrite drop_ge by lia. apply R_nil.
Qed.

End FetchLoop.

Section PrefetchState.
Import GoInt Go Windows Observed Samples.

(** A successful [Prefetch] in terms of its loop: the provider is built from
    the state the loop ends in, and the log is the two opening entries
    followed by the log of the loop. *)
Lemma prefetch_invariant (env : Env) (mp : provider) (d : DockerUtil)
  (rawContainers : list Container)
  (R : list Container → fetch → fetch → trace → Prop) :
  GetDockerUtil env = inl d → RawContainerList d = inl rawContainers →
  (∀ st, R [] st st []) →
  (∀ xs ys st1 st2 st3 t1 t2,
     R xs st1 st2 t1 → R ys st2 st3 t2 → R (xs ++ ys) st1 st3 (t1 ++ t2)) →
  (∀ chunkSize start st,
     let len := Z.of_nat (length rawContainers) in
     let end_ := if len <? start + chunkSize then len else start + chunkSize in
     R (slice rawContainers start end_) st
       (fst (fetch_chunk env d rawContainers chunkSize start st))
       (snd (fetch_chunk env d rawContainers chunkSize start st))) →
  ∃ (st' : fetch) (t' : trace),
    R rawContainers
      {| fetch_agentCID := agentCID mp; fetch_aliased := false; fetch_containers := ∅ |}
      st' t'
    ∧ Prefetch env mp
      = Some (({| containers := fetch_containers st'; agentCID := fetch_agentCID st' |},
               None),
              Log Debug "Retrieved %d containers from docker"
                [AInt (Z.of_nat (length rawContainers))]
              :: Log Info ("Fetching container info by batch of %d" +:+ newline)
                   [AInt (chunk_size (Z.of_nat (length rawContainers)))]
              :: t').
Proof.
  intros Hd Hraw Hnil Happ Hchunk. unfold Prefetch. rewrite Hd, Hraw.
  set (st := {| fetch_agentCID := agentCID mp; fetch_aliased := false;
                fetch_containers := ∅ |}).
  destruct (fetch_loop_invariant env d rawContainers
              (chunk_size (Z.of_nat (length rawContainers))) R Hnil Happ
              (Hchunk _) (length rawContainers) 0 st)
    as (st' & t' & -> & HR); [lia|apply chunk_size_positive|lia|].
  exists st', t'. split; [exact HR|].
  cbn. by rewrite app_nil_r.
Qed.

End PrefetchState.

Section PrefetchOutcome.
Import GoInt Go Windows Observed Samples.

Lemma agent_among (env : Env) (d : DockerUtil) (xs : list Container) :
  existsb (is_agent env d) xs = true ↔ ∃ c, c ∈ xs ∧ is_agent env d c = true.
Proof.
  rewrite existsb_exists. split; intros (c & Hc & Ha); exists c;
    (split; [by apply list_elem_of_In|done]).
Qed.

Lemma no_agent_among (env : Env) (d : DockerUtil) (xs : list Container) :
  existsb (is_agent env d) xs = false ↔ ∀ c, c ∈ xs → is_agent env d c = false.
Proof.
  split.
  - intros Hnone c Hc. destruct (is_agent env d c) eqn:Ha; [|done].
    assert (existsb (is_agent env d) xs = true) by (apply agent_among; eauto).
    congruence.
  - intros Hall. destruct (existsb (is_agent env d) xs) eqn:He; [|done].
    apply agent_among in He as (c & Hc & Ha). rewrite Hall in Ha; done.
Qed.

Lemma fetch_chunk_unfold (env : Env) (d : DockerUtil) (rawContainers : list Container)
  (chunkSize start : Z) (st : fetch) :
  let len := Z.of_nat (length rawContainers) in
  let end_ := if len <? start + chunkSize then len else start + chunkSize in
  let run := for_range (fetch_container env d) (slice rawContainers start end_)
               {| fetch_agentCID := fetch_agentCID st;
                  fetch_aliased := false;
                  fetch_containers := fetch_containers st |} in
  fetch_chunk env d rawContainers chunkSize start st
  = (fst run,
     Log Debug ("Retrieving info on containers %d -> %d" +:+ newline)
       [AInt start; AInt end_]
     :: snd run ++ []).
Proof.
  cbn zeta. unfold fetch_chunk, bind, log, ret.
  by destruct (for_range _ _ _) as [st' t].
Qed.

(** The ids announced in the log of the model, where the goroutines are
    taken one after the other. *)
Lemma prefetch_announcements (env : Env) (mp : provider) (d : DockerUtil)
  (rawContainers : list Container) :
  GetDockerUtil env = inl d → RawContainerList d = inl rawContainers →
  ∃ (mp' : provider) (t : trace),
    Prefetch env mp = Some ((mp', None), t)
    ∧ inspected_ids t = ID <$> rawContainers.
Proof.
  intros Hd Hraw.
  destruct (prefetch_invariant env mp d rawContainers
              (λ xs _ _ t, inspected_ids t = ID <$> xs) Hd Hraw)
    as (st' & t' & Hids & Hrun).
  - done.
  - intros xs ys _ _ _ t1 t2 H1 H2. by rewrite inspected_ids_app, fmap_app, H1, H2.
  - intros chunkSize start st. cbn zeta. rewrite fetch_chunk_unfold. cbn [snd].
    rewrite app_nil_r. apply for_range_announces.
  - eexists _, _. split; [exact Hrun|]. exact Hids.
Qed.

(** X4: a successful [Prefetch] announces the inspection of every listed
    container exactly once: in whatever order the entries of the goroutines
    reach the log, the ids announced are the listed ids up to their order, so
    the chunks neither overlap nor leave a container out. *)
Theorem prefetch_inspects_each_once (env : Env) (mp : provider) (d : DockerUtil)
  (rawContainers : list Container) :
  GetDockerUtil env = inl d → RawContainerList d = inl rawContainers →
  ∃ (mp' : provider) (t : trace),
    Prefetch env mp = Some ((mp', None), t)
    ∧ ∀ t' : trace, t' ≡ₚ t → inspected_ids t' ≡ₚ ID <$> rawContainers.
Proof.
  intros Hd Hraw.
  destruct (prefetch_announcements env mp d rawContainers Hd Hraw)
    as (mp' & t & Hrun & Hids).
  exists mp', t. split; [exact Hrun|].
  intros t' Hperm. unfold inspected_ids. rewrite Hperm. by rewrite <- Hids.
Qed.

Lemma prefetch_inspects_each_once_witness :
  ∃ (mp' : provider) (t : trace),
    Prefetch flaky_env new_provider = Some ((mp', None), t)
    ∧ inspected_ids (reverse t) ≡ₚ ["web"; "db"; "agent"].
Proof.
  destruct (prefetch_inspects_each_once flaky_env new_provider flaky_docker
              three_containers eq_refl eq_refl) as (mp' & t & Hrun & Hids).
  exists mp', t. split; [exact Hrun|]. apply Hids, reverse_Permutation.
Defined.

(** The agent id after a chunk, whatever the kind of loop variable. *)
Lemma fetch_chunk_agent (env : Env) (d : DockerUtil) (rawContainers : list Container)
  (chunkSize start : Z) (st : fetch) :
  let len := Z.of_nat (length rawContainers) in
  let end_ := if len <? start + chunkSize then len else start + chunkSize in
  let xs := slice rawContainers start end_ in
  let st' := fst (fetch_chunk env d rawContainers chunkSize start st) in
  ((∀ c, c ∈ xs → is_agent env d c = false) →
   fetch_agentCID st' = fetch_agentCID st)
  ∧ ((∃ c, c ∈ xs ∧ is_agent env d c = true) →
     ∃ c, c ∈ xs ∧ fetch_agentCID st' = Some (ID c)
          ∧ (loopvar env = PerIteration → is_agent env d c = true)).
Proof.
  cbn zeta. rewrite fetch_chunk_unfold. cbn [fst].
  set (xs := slice rawContainers start _).
  set (st0 := {| fetch_agentCID := fetch_agentCID st; fetch_aliased := false;
                 fetch_containers := fetch_containers st |}).
  destruct (loopvar env) eqn:Hlv.
  - destruct (for_range_agent_per_loop env d xs st0 Hlv) as [_ Hag].
    cbn zeta in Hag. cbn [fetch_aliased fetch_agentCID st0 orb] in Hag. split.
    + intros Hnone. apply no_agent_among in Hnone. rewrite Hag, Hnone.
      by destruct (last xs).
    + intros Hsome. apply agent_among in Hsome as Hex. rewrite Hag, Hex.
      destruct (last xs) as [l|] eqn:Hlast.
      * exists l. split; [by apply last_Some_elem_of|]. split; [done|]. intros; done.
      * apply last_None in Hlast. destruct Hsome as (c & Hc & _).
        rewrite Hlast in Hc. by apply not_elem_of_nil in Hc.
  - rewrite (for_range_agent_per_iteration env d xs st0 Hlv). cbn [fetch_agentCID st0].
    split.
    + intros Hnone.
      destruct (filter (λ c, is_agent env d c = true) xs) as [|c cs] eqn:Hf; [done|].
      assert (Hc : c ∈ filter (λ c, is_agent env d c = true) xs) by (rewrite Hf; left).
      apply list_elem_of_filter in Hc as [Ha Hc]. rewrite Hnone in Ha; done.
    + intros (c & Hc & Ha).
      destruct (last (filter (λ c, is_agent env d c = true) xs)) as [l|] eqn:Hlast.
      * apply last_Some_elem_of, list_elem_of_filter in Hlast as [Hla Hl]. eauto.
      * apply last_None in Hlast. exfalso.
        by eapply (filter_nil_not_elem_of (λ c, is_agent env d c = true) xs c).
Qed.

(** X5: what a successful [Prefetch] does to the agent's container id.  If
    no listed container passes the agent test (its process is the agent's or
    the agent's parent), the id is left as it was; otherwise it becomes the
    id of a listed container, and with one loop variable per iteration that
    is a container that passes the test. *)
Theorem prefetch_agent_cid (env : Env) (mp : provider) (d : DockerUtil)
  (rawContainers : list Container) :
  GetDockerUtil env = inl d → RawContainerList d = inl rawContainers →
  ∃ (mp' : provider) (t : trace),
    Prefetch env mp = Some ((mp', None), t)
    ∧ ((∀ c, c ∈ rawContainers → is_agent env d c = false) →
       agentCID mp' = agentCID mp)
    ∧ ((∃ c, c ∈ rawContainers ∧ is_agent env d c = true) →
       ∃ c, c ∈ rawContainers ∧ agentCID mp' = Some (ID c)
            ∧ (loopvar env = PerIteration → is_agent env d c = true)).
Proof.
  intros Hd Hraw.
  destruct (prefetch_invariant env mp d rawContainers
              (λ xs st st' _,
                 ((∀ c, c ∈ xs → is_agent env d c = false) →
                  fetch_agentCID st' = fetch_agentCID st)
                 ∧ ((∃ c, c ∈ xs ∧ is_agent env d c = true) →
                    ∃ c, c ∈ xs ∧ fetch_agentCID st' = Some (ID c)
                         ∧ (loopvar env = PerIteration → is_agent env d c = true)))
              Hd Hraw)
    as (st' & t' & [Hnone Hsome] & Hrun).
  - intros st. split; [done|]. intros (c & Hc & _). by apply not_elem_of_nil in Hc.
  - intros xs ys st1 st2 st3 _ _ [Hn1 Hs1] [Hn2 Hs2]. split.
    + intros Hnone. rewrite Hn2, Hn1; [done|..];
        intros c Hc; apply Hnone, elem_of_app; auto.
    + intros (c & Hc & Ha).
      destruct (existsb (is_agent env d) ys) eqn:Hys.
      * apply agent_among in Hys. destruct (Hs2 Hys) as (c' & Hc' & Hag & Hit).
        exists c'. split; [apply elem_of_app; auto|done].
      * pose proof (proj1 (no_agent_among env d ys) Hys) as Hnone.
        rewrite (Hn2 Hnone).
        apply elem_of_app in Hc as [Hc|Hc]; [|rewrite Hnone in Ha; done].
        destruct Hs1 as (c' & Hc' & Hag & Hit); [eauto|].
        exists c'. split; [apply elem_of_app; auto|done].
  - intros chunkSize start st. apply fetch_chunk_agent.
  - eexists _, _. split; [exact Hrun|]. cbn [agentCID]. split; [exact Hnone|exact Hsome].
Qed.

Lemma prefetch_agent_cid_witness :
  ∃ (mp' : provider) (t : trace),
    Prefetch flaky_env one_container = Some ((mp', None), t)
    ∧ ∃ c, c ∈ three_containers ∧ agentCID mp' = Some (ID c).
Proof.
  destruct (prefetch_agent_cid flaky_env one_container flaky_docker three_containers
              eq_refl eq_refl) as (mp' & t & Hrun & _ & Hsome).
  exists mp', t. split; [exact Hrun|].
  destruct Hsome as (c & Hc & Hag & _).
  - exists {| ID := "agent" |}. split; [|reflexivity].
    unfold three_containers. repeat constructor.
  - eauto.
Defined.

End PrefetchOutcome.

Section PrefetchSnapshots.
Import GoInt Go Windows Observed Samples.

Lemma chunk_size_small (len : Z) : 0 ≤ len < 16 → chunk_size len = len.
Proof.
  intros Hlen. unfold chunk_size.
  assert (len `quot` 8 ≤ 1).
  { rewrite Z.quot_div_nonneg by lia. apply Z.lt_succ_r, Z.div_lt_upper_bound; lia. }
  destruct (Z.leb_spec (len `quot` 8) 1); [done|lia].
Qed.

Lemma fetch_loop_done (fuel : nat) (env : Env) (d : DockerUtil)
  (rawContainers : list Container) (chunkSize i : Z) (st : fetch) :
  Z.of_nat (length rawContainers) ≤ i →
  fetch_loop fuel env d rawContainers chunkSize i st = Some (st, []).
Proof.
  intros Hi. destruct fuel; cbn [fetch_loop];
    by destruct (Z.ltb_spec i (Z.of_nat (length rawContainers))); [lia|].
Qed.

Lemma slice_all {A} (xs : list A) :
  let len := Z.of_nat (length xs) in
  slice xs 0 (if len <? 0 + len then len else 0 + len) = xs.
Proof.
  cbn zeta. rewrite Z.add_0_l, Z.ltb_irrefl. unfold slice.
  cbn [Z.to_nat drop]. apply take_ge. lia.
Qed.

(** When the chunk size is the length of the list, the loop runs one chunk. *)
Lemma fetch_loop_one_chunk (fuel : nat) (env : Env) (d : DockerUtil)
  (rawContainers : list Container) (st : fetch) :
  (0 < fuel)%nat → (0 < length rawContainers)%nat →
  fetch_loop fuel env d rawContainers (Z.of_nat (length rawContainers)) 0 st
  = Some (fst (fetch_chunk env d rawContainers (Z.of_nat (length rawContainers)) 0 st),
          snd (fetch_chunk env d rawContainers (Z.of_nat (length rawContainers)) 0 st)
          ++ []).
Proof.
  intros Hfuel Hlen. destruct fuel as [|fuel]; [lia|]. cbn [fetch_loop].
  destruct (Z.ltb_spec 0 (Z.of_nat (length rawContainers))) as [_|]; [|lia].
  destruct (fetch_chunk _ _ _ _ _ _) as [st1 t1].
  by rewrite fetch_loop_done by lia.
Qed.

(** X6: with one variable for all the iterations of a loop (Go before 1.22)
    and fewer than 16 listed containers, which are fetched as one chunk, a
    [Prefetch] that meets the agent's container leaves as agent id the id of
    the last listed container, whichever container passed the test: the
    pointer taken is the address of the loop variable. *)
Theorem prefetch_agent_cid_is_last_listed (env : Env) (mp : provider) (d : DockerUtil)
  (rawContainers : list Container) :
  GetDockerUtil env = inl d → RawContainerList d = inl rawContainers →
  loopvar env = PerLoop →
  (length rawContainers < 16)%nat →
  (∃ c, c ∈ rawContainers ∧ is_agent env d c = true) →
  ∃ (mp' : provider) (t : trace) (l : Container),
    Prefetch env mp = Some ((mp', None), t)
    ∧ last rawContainers = Some l
    ∧ agentCID mp' = Some (ID l).
Proof.
  intros Hd Hraw Hlv Hlen Hsome.
  assert (Hne : rawContainers ≠ []).
  { intros ->. destruct Hsome as (c & Hc & _). by apply not_elem_of_nil in Hc. }
  apply last_is_Some in Hne as [l Hl]. apply agent_among in Hsome.
  assert (Hpos : (0 < length rawContainers)%nat).
  { destruct rawContainers; [done|cbn; lia]. }
  unfold Prefetch. rewrite Hd, Hraw, chunk_size_small by lia.
  rewrite fetch_loop_one_chunk by done.
  rewrite fetch_chunk_unfold, slice_all. cbn [fst snd].
  set (st0 := {| fetch_agentCID := agentCID mp; fetch_aliased := false;
                 fetch_containers := ∅ |}).
  destruct (for_range_agent_per_loop env d rawContainers st0 Hlv) as [_ Hag].
  cbn zeta in Hag. cbn [fetch_aliased st0 orb] in Hag. rewrite Hsome, Hl in Hag.
  eexists _, _, l. split; [reflexivity|]. split; [done|exact Hag].
Qed.

Lemma prefetch_agent_cid_is_last_listed_witness :
  ∃ (mp' : provider) (t : trace) (l : Container),
    Prefetch (agent_first_env PerLoop) new_provider = Some ((mp', None), t)
    ∧ last [ {| ID := "agent" |}; {| ID := "web" |} ] = Some l
    ∧ agentCID mp' = Some (ID l).
Proof.
  refine (prefetch_agent_cid_is_last_listed (agent_first_env PerLoop) new_provider
            _ [ {| ID := "agent" |}; {| ID := "web" |} ] eq_refl eq_refl eq_refl _ _).
  - simpl. lia.
  - exists {| ID := "agent" |}. split; [repeat constructor|reflexivity].
Defined.

(** X7: a successful [Prefetch] replaces the published map as a whole:
    afterwards a container exists exactly when the daemon listed it, and
    what was published before for other ids is gone. *)
Theorem prefetch_replaces_snapshot (env : Env) (mp : provider) (d : DockerUtil)
  (rawContainers : list Container) :
  GetDockerUtil env = inl d → RawContainerList d = inl rawContainers →
  ∃ (mp' : provider) (t : trace),
    Prefetch env mp = Some ((mp', None), t)
    ∧ (∀ id, ContainerExists mp' id = bool_decide (id ∈ ID <$> rawContainers))
    ∧ (∀ id, id ∉ ID <$> rawContainers →
         GetContainerStartTime mp' id = (0, Some (Errorf "container not found"))
         ∧ GetContainerMetrics mp' id = (None, Some (Errorf "container not found"))
         ∧ GetContainerLimits mp' id = (None, Some (Errorf "container not found"))).
Proof.
  intros Hd Hraw.
  destruct (prefetch_listed env mp d rawContainers Hd Hraw)
    as (mp' & t & t' & Hrun & [Hmap _] & _).
  exists mp', t. split; [exact Hrun|]. split.
  - intros id. unfold ContainerExists. rewrite Hmap.
    destruct (decide (id ∈ ID <$> rawContainers)) as [Hin|Hout].
    + by rewrite bool_decide_eq_true_2.
    + by rewrite bool_decide_eq_false_2, lookup_empty.
  - intros id Hout.
    unfold GetContainerStartTime, GetContainerMetrics, GetContainerLimits, not_found.
    by rewrite Hmap, decide_False, lookup_empty.
Qed.

Lemma prefetch_replaces_snapshot_witness :
  ∃ (mp' : provider) (t : trace),
    Prefetch seventeen_env one_container = Some ((mp', None), t)
    ∧ ContainerExists mp' "web" = false
    ∧ ContainerExists mp' "a" = true.
Proof.
  destruct (prefetch_replaces_snapshot seventeen_env one_container _ _ eq_refl eq_refl)
    as (mp' & t & Hrun & Hexists & _).
  exists mp', t. split; [exact Hrun|]. split.
  - rewrite Hexists. reflexivity.
  - rewrite Hexists. reflexivity.
Defined.

(** X8: a [Prefetch] that returns an error changes nothing: the provider
    keeps the map and the agent id it had, so the accessors go on answering
    from the last snapshot, and nothing is logged. *)
Theorem prefetch_failure_keeps_state (env : Env) (mp mp' : provider)
  (err : error_value) (t : trace) :
  Prefetch env mp = Some ((mp', Some err), t) →
  mp' = mp ∧ t = []
  ∧ ∀ id, ContainerExists mp' id = ContainerExists mp id
          ∧ GetContainerMetrics mp' id = GetContainerMetrics mp id.
Proof.
  intros Hrun.
  assert (Hsame : mp' = mp ∧ t = []).
  { destruct (GetDockerUtil env) as [d|e] eqn:Hd.
    - destruct (RawContainerList d) as [rawContainers|e] eqn:Hraw.
      + destruct (prefetch_listed env mp d rawContainers Hd Hraw)
          as (? & ? & ? & Hok & _). congruence.
      + unfold Prefetch in Hrun. rewrite Hd, Hraw in Hrun. unfold ret in Hrun.
        by simplify_eq.
    - unfold Prefetch in Hrun. rewrite Hd in Hrun. unfold ret in Hrun.
      by simplify_eq. }
  destruct Hsame as [-> ->]. done.
Qed.

Lemma prefetch_failure_keeps_state_witness :
  one_container = one_container ∧ @nil entry = []
  ∧ ∀ id, ContainerExists one_container id = ContainerExists one_container id
          ∧ GetContainerMetrics one_container id = GetContainerMetrics one_container id.
Proof.
  apply (prefetch_failure_keeps_state no_docker_env one_container one_container
           (Errorf "docker not available") []).
  reflexivity.
Defined.

End PrefetchSnapshots.

Section PartialBundles.
Import GoInt Go Windows Observed Samples.

(** The bundle of a container has limits exactly when it could be
    inspected. *)
Lemma stored_limits_iff (env : Env) (d : DockerUtil) (id : string) :
  is_Some (limits (stored_bundle env d id)) ↔ ∃ cjson, Inspect d id = inl cjson.
Proof.
  unfold stored_bundle, inspect_bundle, fillContainerDetails. cbn [ID].
  destruct (Inspect d id) as [cjson|err];
    try destruct (ParseRFC3339 env (State_StartedAt cjson)) as [unix|perr];
    destruct (GetContainerStats d id) as [[stats|] [serr|]]; cbn;
    rewrite is_Some_alt; split; try done; try (by eexists); by intros [? ?].
Qed.

(** It has metrics exactly when its statistics could be read. *)
Lemma stored_metrics_iff (env : Env) (d : DockerUtil) (id : string) :
  is_Some (metrics (stored_bundle env d id))
  ↔ ∃ stats, GetContainerStats d id = (Some stats, None).
Proof.
  unfold stored_bundle, inspect_bundle, fillContainerDetails. cbn [ID].
  destruct (Inspect d id) as [cjson|err];
    try destruct (ParseRFC3339 env (State_StartedAt cjson)) as [unix|perr];
    destruct (GetContainerStats d id) as [[stats|] [serr|]]; cbn;
    rewrite is_Some_alt; split; try done; try (by eexists); by intros [? ?].
Qed.

(** X9: after a successful [Prefetch] the accessors return a [nil] error for
    every listed container, but their data can be [nil] all the same: the
    limits are there exactly when the container could be inspected and the
    metrics exactly when its statistics could be read.  Without statistics
    the network metrics are an empty slice, and without inspection the start
    time is 0. *)
Theorem listed_container_may_lack_data (env : Env) (mp : provider) (d : DockerUtil)
  (rawContainers : list Container) (c : Container) (networks : gmap string string) :
  GetDockerUtil env = inl d → RawContainerList d = inl rawContainers →
  c ∈ rawContainers →
  ∃ (mp' : provider) (t : trace),
    Prefetch env mp = Some ((mp', None), t)
    ∧ snd (GetContainerLimits mp' (ID c)) = None
    ∧ snd (GetContainerMetrics mp' (ID c)) = None
    ∧ snd (GetContainerStartTime mp' (ID c)) = None
    ∧ snd (GetNetworkMetrics mp' (ID c) networks) = None
    ∧ (is_Some (fst (GetContainerLimits mp' (ID c)))
       ↔ ∃ cjson, Inspect d (ID c) = inl cjson)
    ∧ (is_Some (fst (GetContainerMetrics mp' (ID c)))
       ↔ ∃ stats, GetContainerStats d (ID c) = (Some stats, None))
    ∧ ((∀ stats, GetContainerStats d (ID c) ≠ (Some stats, None)) →
       fst (GetNetworkMetrics mp' (ID c) networks) = Some [])
    ∧ (∀ err, Inspect d (ID c) = inr err →
       fst (GetContainerStartTime mp' (ID c)) = 0).
Proof.
  intros Hd Hraw Hc.
  destruct (prefetch_listed env mp d rawContainers Hd Hraw)
    as (mp' & t & t' & Hrun & [Hmap _] & _).
  assert (Hentry : containers mp' !! ID c = Some (stored_bundle env d (ID c))).
  { rewrite Hmap, decide_True; [done|]. by apply list_elem_of_fmap_2. }
  exists mp', t. split; [exact Hrun|].
  unfold GetContainerLimits, GetContainerMetrics, GetContainerStartTime, GetNetworkMetrics.
  rewrite Hentry. cbn [fst snd].
  split_and!; try done.
  - apply stored_limits_iff.
  - apply stored_metrics_iff.
  - intros Hstats. destruct (stats_failure_logged env d c Hstats) as (_ & _ & ->).
    by rewrite map_to_list_empty.
  - intros err Hinspect.
    by destruct (inspect_failure_logged env d c err Hinspect) as (_ & _ & ->).
Qed.

Lemma listed_container_may_lack_data_witness :
  ∃ (mp' : provider) (t : trace),
    Prefetch flaky_env new_provider = Some ((mp', None), t)
    ∧ GetContainerLimits mp' "db" = (None, None)
    ∧ GetContainerMetrics mp' "web" = (None, None).
Proof.
  destruct (listed_container_may_lack_data flaky_env new_provider flaky_docker
              three_containers {| ID := "db" |} ∅ eq_refl eq_refl)
    as (mp' & t & Hrun & _); [unfold three_containers; repeat constructor|].
  exists mp', t. split; [exact Hrun|].
  vm_compute in Hrun. injection Hrun as <- _. split; reflexivity.
Defined.

(** X10: when the kernel time does not exceed the total, both in jiffies,
    the user time is their plain difference: user and kernel time add up to
    the total and the user time is at most the total. *)
Theorem cpu_times_add_up (stats : StatsJSON) :
  is_uint64 (UsageInKernelmode stats) →
  is_uint64 (TotalUsage stats) →
  UsageInKernelmode stats `div` 100000 ≤ TotalUsage stats `div` 100000 →
  ∃ user kernel total : Z,
    cpu_jiffies stats = (user, kernel, total)
    ∧ kernel = UsageInKernelmode stats `div` 100000
    ∧ total = TotalUsage stats `div` 100000
    ∧ user + kernel = total
    ∧ 0 ≤ user ≤ total.
Proof.
  intros Hk Ht Hle.
  pose proof (div_is_uint64 _ 100000 Hk ltac:(lia)) as Hkj.
  pose proof (div_is_uint64 _ 100000 Ht ltac:(lia)) as Htj.
  eexists _, _, _. unfold cpu_jiffies.
  rewrite !uint64_div_small by (done || lia).
  unfold uint64_sub. rewrite uint64_wrap_id
    by (unfold is_uint64, max_uint64 in *; lia).
  destruct (Z.ltb_spec (TotalUsage stats `div` 100000
                        - UsageInKernelmode stats `div` 100000) 0); [lia|].
  split; [reflexivity|]. unfold is_uint64 in *. split_and!; lia.
Qed.

Lemma cpu_times_add_up_witness :
  ∃ user kernel total : Z,
    cpu_jiffies {| UsageInKernelmode := 250000; TotalUsage := 1000000;
                   PrivateWorkingSet := 0; Commit := 0; CommitPeak := 0;
                   ReadSizeBytes := 0; WriteSizeBytes := 0; Networks := ∅ |}
    = (user, kernel, total)
    ∧ kernel = 2 ∧ total = 10 ∧ user + kernel = total ∧ 0 ≤ user ≤ total.
Proof.
  apply (cpu_times_add_up
           {| UsageInKernelmode := 250000; TotalUsage := 1000000;
              PrivateWorkingSet := 0; Commit := 0; CommitPeak := 0;
              ReadSizeBytes := 0; WriteSizeBytes := 0; Networks := ∅ |}).
  - unfold is_uint64, max_uint64. simpl. lia.
  - unfold is_uint64, max_uint64. simpl. lia.
  - vm_compute. discriminate.
Defined.

(** X11: whatever orders the ranges of two calls of [GetNetworkMetrics] on
    a published container take, both return, with a [nil] error, the sent and
    received bytes and packets of the stored interfaces, the same up to
    order: the [networks] argument changes names only, never the counters.
    If the two arguments agree on the container's own interfaces the two
    results hold the same entries up to order, and without any mapping the
    entries are named after the interfaces. *)
Theorem network_names_only (mp : provider) (containerID : string)
  (b : containerBundle) (n1 n2 : gmap string string)
  (range1 range2 : gmap string NetworkStats → list (string * NetworkStats)) :
  containers mp !! containerID = Some b →
  visits_every_entry range1 → visits_every_entry range2 →
  ∃ s1 s2 : list InterfaceNetStats,
    GetNetworkMetricsIn range1 mp containerID n1 = (Some s1, None)
    ∧ GetNetworkMetricsIn range2 mp containerID n2 = (Some s2, None)
    ∧ ((λ s, (BytesSent s, BytesRcvd s, PacketsSent s, PacketsRcvd s)) <$> s1)
      ≡ₚ ((λ '(_, netStat),
             (TxBytes netStat, RxBytes netStat, TxPackets netStat, RxPackets netStat))
          <$> map_to_list (networkMetrics b))
    ∧ ((λ s, (BytesSent s, BytesRcvd s, PacketsSent s, PacketsRcvd s)) <$> s1)
      ≡ₚ ((λ s, (BytesSent s, BytesRcvd s, PacketsSent s, PacketsRcvd s)) <$> s2)
    ∧ ((∀ ifaceName, is_Some (networkMetrics b !! ifaceName) →
          n1 !! ifaceName = n2 !! ifaceName) →
       s1 ≡ₚ s2)
    ∧ (n1 = ∅ → NetworkName <$> s1 ≡ₚ fst <$> map_to_list (networkMetrics b)).
Proof.
  intros Hb Hr1 Hr2. unfold GetNetworkMetricsIn. rewrite Hb.
  eexists _, _. split; [reflexivity|]. split; [reflexivity|].
  pose proof (network_range_entries n1 _ _ (Hr1 (networkMetrics b))) as H1.
  pose proof (network_range_entries n2 _ _ (Hr2 (networkMetrics b))) as H2.
  assert (Hcounters : ∀ (n : gmap string string) (s : list InterfaceNetStats),
            s ≡ₚ (λ '(ifaceName, netStat),
                    {| NetworkName := default ifaceName (n !! ifaceName);
                       BytesSent := TxBytes netStat;
                       BytesRcvd := RxBytes netStat;
                       PacketsSent := TxPackets netStat;
                       PacketsRcvd := RxPackets netStat |})
                 <$> map_to_list (networkMetrics b) →
            ((λ s, (BytesSent s, BytesRcvd s, PacketsSent s, PacketsRcvd s)) <$> s)
            ≡ₚ ((λ '(_, netStat),
                   (TxBytes netStat, RxBytes netStat, TxPackets netStat,
                    RxPackets netStat))
                <$> map_to_list (networkMetrics b))).
  { intros n s ->. rewrite <- list_fmap_compose.
    apply eq_subrelation; [apply _|].
    apply Forall_fmap_ext_1, Forall_forall. by intros [ifaceName netStat] _. }
  split_and!.
  - by apply (Hcounters n1).
  - rewrite (Hcounters n1) by done. by rewrite (Hcounters n2).
  - intros Hagree. rewrite H1, H2.
    apply eq_subrelation; [apply _|].
    apply Forall_fmap_ext_1, Forall_forall.
    intros [ifaceName netStat] Hin%elem_of_map_to_list.
    by rewrite Hagree by by eexists.
  - intros ->. rewrite H1, <- list_fmap_compose.
    apply eq_subrelation; [apply _|].
    apply Forall_fmap_ext_1, Forall_forall.
    intros [ifaceName netStat] _. cbn. by rewrite lookup_empty.
Qed.

Lemma network_names_only_witness :
  ∃ s1 s2 : list InterfaceNetStats,
    GetNetworkMetricsIn map_to_list gateway_container "gw" {[ "eth1" := "bridge" ]}
    = (Some s1, None)
    ∧ GetNetworkMetricsIn backwards gateway_container "gw" ∅ = (Some s2, None)
    ∧ ((λ s, (BytesSent s, BytesRcvd s, PacketsSent s, PacketsRcvd s)) <$> s1)
      ≡ₚ [(400, 300, 4, 3); (20, 10, 2, 1)]
    ∧ ((λ s, (BytesSent s, BytesRcvd s, PacketsSent s, PacketsRcvd s)) <$> s1)
      ≡ₚ ((λ s, (BytesSent s, BytesRcvd s, PacketsSent s, PacketsRcvd s)) <$> s2).
Proof.
  destruct (network_names_only gateway_container "gw" two_interfaces
              {[ "eth1" := "bridge" ]} ∅ map_to_list backwards eq_refl)
    as (s1 & s2 & Hrun1 & Hrun2 & Hpinned & Hsame & _).
  - intros m. reflexivity.
  - intros m. unfold backwards. apply reverse_Permutation.
  - exists s1, s2. split; [exact Hrun1|]. split; [exact Hrun2|].
    split; [exact Hpinned|exact Hsame].
Defined.

(** X12: once the agent's container id is known, [GetAgentCID] answers from
    the provider alone: in any environment it returns the same id with a
    [nil] error, leaves the provider as it is and logs nothing, so it does
    not prefetch again.  While the id is unknown every call forces a new
    prefetch. *)
Theorem agent_cid_is_cached (env env' : Env) (mp mp' : provider) (cid : string)
  (err : error) (t : trace) :
  GetAgentCID env mp = Some ((mp', (cid, err)), t) →
  (is_Some (agentCID mp') →
   GetAgentCID env' mp' = Some ((mp', (cid, None)), []))
  ∧ (agentCID mp' = None →
     cid = ""
     ∧ ∃ mp'' r t', GetAgentCID env' mp' = Some ((mp'', r), t')
         ∧ head t' = Some (Log Info "AgentCID is empty, forcing a prefetch" [])
         ∧ ∃ e t'', Prefetch env' mp' = Some ((mp'', e), t'')).
Proof.
  intros Hrun.
  assert (Hcid : cid = default "" (agentCID mp')).
  { unfold GetAgentCID in Hrun.
    destruct (agentCID mp) as [known|] eqn:Hknown.
    - cbn in Hrun. rewrite Hknown in Hrun. simplify_eq. by rewrite Hknown.
    - destruct (Prefetch env mp) as [[[mp1 e] t1]|]; [|done]. cbn in Hrun.
      destruct (agentCID mp1) as [found|] eqn:Hfound; simplify_eq; by rewrite Hfound. }
  split.
  - intros [known Hknown]. rewrite Hknown in Hcid. cbn in Hcid. subst cid.
    unfold GetAgentCID. rewrite Hknown. cbn. by rewrite Hknown.
  - intros Hnone. rewrite Hnone in Hcid. split; [done|].
    unfold GetAgentCID. rewrite Hnone.
    destruct (prefetch_returns env' mp') as [[[mp2 e] t2] Hp]. rewrite Hp. cbn.
    destruct (agentCID mp2); eexists _, _, _; (split; [reflexivity|]);
      (split; [reflexivity|]); eauto.
Qed.

Lemma agent_cid_is_cached_witness :
  ∃ mp' : provider,
    GetAgentCID no_docker_env mp' = Some ((mp', ("agent", None)), []).
Proof.
  destruct (GetAgentCID flaky_env new_provider) as [[[mp' [cid err]] t]|] eqn:Hrun.
  - exists mp'.
    destruct (agent_cid_is_cached flaky_env no_docker_env new_provider mp' cid err t Hrun)
      as [Hcached _].
    vm_compute in Hrun. injection Hrun as <- <- _ _. apply Hcached. by eexists.
  - vm_compute in Hrun. discriminate.
Defined.

End PartialBundles.

(** ** The Windows container provider: gateway and routes *)
Section Gateway.
Import GoInt Go Checks Windows WindowsNet Samples.

Example default_gateway_fields_run :
  defaultGatewayFields (route_env (inl route_output))
  = Returns (Some ["0.0.0.0"; "0.0.0.0"; "10.211.55.1"; "10.211.55.4"; "25"], None).
Proof. vm_compute. reflexivity. Qed.

Example default_host_ips_run :
  GetDefaultHostIPs (route_env (inl route_output)) new_provider
  = Returns (Some ["10.211.55.4"], None).
Proof. vm_compute. reflexivity. Qed.

(** The scan stops at the first line with five fields of which the first is
    ["0.0.0.0"], and fails when there is none. *)
Lemma scan_gateway_spec (env : RouteEnv) (lines : list string) :
  ∃ r, scan_gateway env lines = Returns r
    ∧ match r with
      | (Some fields, None) =>
          length fields = 5%nat ∧ fields !! 0%nat = Some "0.0.0.0"
          ∧ ∃ before text after,
              lines = before ++ text :: after
              ∧ fields = Fields env text
              ∧ Forall (λ l, ¬ (length (Fields env l) = 5%nat
                                ∧ Fields env l !! 0%nat = Some "0.0.0.0")) before
      | (None, Some err) =>
          err = Errorf "couldn't retrieve default gateway information"
          ∧ Forall (λ l, ¬ (length (Fields env l) = 5%nat
                            ∧ Fields env l !! 0%nat = Some "0.0.0.0")) lines
      | _ => False
      end.
Proof.
  induction lines as [|text lines IH].
  - eexists. split; [reflexivity|]. by split.
  - cbn [scan_gateway].
    assert (Hskip : ¬ (length (Fields env text) = 5%nat
                       ∧ Fields env text !! 0%nat = Some "0.0.0.0") →
              ∃ r, scan_gateway env lines = Returns r
                ∧ match r with
                  | (Some fields, None) =>
                      length fields = 5%nat ∧ fields !! 0%nat = Some "0.0.0.0"
                      ∧ ∃ before text' after,
                          text :: lines = before ++ text' :: after
                          ∧ fields = Fields env text'
                          ∧ Forall (λ l, ¬ (length (Fields env l) = 5%nat
                                            ∧ Fields env l !! 0%nat = Some "0.0.0.0"))
                              before
                  | (None, Some err) =>
                      err = Errorf "couldn't retrieve default gateway information"
                      ∧ Forall (λ l, ¬ (length (Fields env l) = 5%nat
                                        ∧ Fields env l !! 0%nat = Some "0.0.0.0"))
                          (text :: lines)
                  | _ => False
                  end).
    { intros Hno. destruct IH as ([[fields|] [err|]] & Hrun & Hr); try done;
        eexists; (split; [exact Hrun|]); cbn beta iota.
      - destruct Hr as (Hlen & Hfirst & before & text' & after & -> & -> & Hall).
        split; [done|]. split; [done|].
        exists (text :: before), text', after. split; [done|]. split; [done|].
        by constructor.
      - destruct Hr as [-> Hall]. split; [done|]. by constructor. }
    destruct (Z.eqb_spec (Z.of_nat (length (Fields env text))) 5) as [Hlen|Hlen].
    + unfold index. destruct (Fields env text !! 0%nat) as [first|] eqn:Hfirst.
      * destruct (decide (first = "0.0.0.0")) as [->|Hne].
        -- eexists. split; [reflexivity|]. split; [lia|]. split; [done|].
           exists [], text, lines. by split_and!.
        -- apply Hskip. intros [_ ?]. congruence.
      * apply lookup_ge_None in Hfirst. lia.
    + apply Hskip. intros [? _]. lia.
Qed.

Lemma default_gateway_fields_shape_aux (env : RouteEnv) :
  ∃ r, defaultGatewayFields env = Returns r
    ∧ match r with
      | (Some fields, None) => length fields = 5%nat ∧ fields !! 0%nat = Some "0.0.0.0"
      | (None, Some err) => True
      | _ => False
      end.
Proof.
  unfold defaultGatewayFields.
  destruct (CombinedOutput env "route" ["print"; "0.0.0.0"]) as [output|err].
  - destruct (scan_gateway_spec env (ScanLines env output))
      as ([[fields|] [err|]] & Hrun & Hr); try done;
      eexists; (split; [exact Hrun|]); cbn beta iota; [|done].
    by destruct Hr as (Hlen & Hfirst & _).
  - by eexists.
Qed.

(** X13: [defaultGatewayFields] never panics.  When it succeeds its result
    has exactly five fields, the first being ["0.0.0.0"], and they are the
    fields of the first such line of the command's output.  It fails with the
    command's error when the command fails, and with its own error when no
    line qualifies. *)
Theorem default_gateway_fields_shape (env : RouteEnv) :
  ∃ r, defaultGatewayFields env = Returns r
    ∧ match r with
      | (Some fields, None) =>
          length fields = 5%nat ∧ fields !! 0%nat = Some "0.0.0.0"
          ∧ ∃ output before text after,
              CombinedOutput env "route" ["print"; "0.0.0.0"] = inl output
              ∧ ScanLines env output = before ++ text :: after
              ∧ fields = Fields env text
              ∧ Forall (λ l, ¬ (length (Fields env l) = 5%nat
                                ∧ Fields env l !! 0%nat = Some "0.0.0.0")) before
      | (None, Some err) =>
          CombinedOutput env "route" ["print"; "0.0.0.0"] = inr err
          ∨ ∃ output,
              CombinedOutput env "route" ["print"; "0.0.0.0"] = inl output
              ∧ err = Errorf "couldn't retrieve default gateway information"
              ∧ Forall (λ l, ¬ (length (Fields env l) = 5%nat
                                ∧ Fields env l !! 0%nat = Some "0.0.0.0"))
                  (ScanLines env output)
      | _ => False
      end.
Proof.
  unfold defaultGatewayFields.
  destruct (CombinedOutput env "route" ["print"; "0.0.0.0"]) as [output|err].
  - destruct (scan_gateway_spec env (ScanLines env output))
      as ([[fields|] [err|]] & Hrun & Hr); try done;
      eexists; (split; [exact Hrun|]); cbn beta iota.
    + destruct Hr as (Hlen & Hfirst & before & text & after & Hlines & Hf & Hall).
      split; [done|]. split; [done|]. by exists output, before, text, after.
    + right. exists output. by destruct Hr.
  - eexists. split; [reflexivity|]. by left.
Qed.

(** X14: [GetDefaultGateway] and [GetDefaultHostIPs] never panic on the
    indices 2 and 3.  When the gateway line is found, the host IPs are the one
    address in its fourth field, and the gateway is whatever [net.ParseIP]
    makes of its third field, a [nil] address included, with a [nil] error in
    both.  Otherwise both return the error of [defaultGatewayFields] and no
    data. *)
Theorem gateway_accessors_never_panic (env : RouteEnv) (mp : provider) :
  ∃ r, defaultGatewayFields env = Returns r
    ∧ match r with
      | (Some fields, None) =>
          ∃ f0 f1 f2 f3 f4,
            fields = [f0; f1; f2; f3; f4]
            ∧ GetDefaultGateway env mp = Returns (ParseIP env f2, None)
            ∧ GetDefaultHostIPs env mp = Returns (Some [f3], None)
      | (_, Some err) =>
          GetDefaultGateway env mp = Returns (None, Some err)
          ∧ GetDefaultHostIPs env mp = Returns (None, Some err)
      | (None, None) => False
      end.
Proof.
  destruct (default_gateway_fields_shape_aux env) as (r & Hrun & Hr).
  exists r. split; [exact Hrun|].
  unfold GetDefaultGateway, GetDefaultHostIPs. rewrite Hrun.
  destruct r as [[fields|] [err|]]; try done.
  destruct Hr as [Hlen _].
  destruct fields as [|f0 [|f1 [|f2 [|f3 [|f4 [|f5 fields]]]]]]; try done.
  by exists f0, f1, f2, f3, f4.
Qed.

End Gateway.

(** ** The Windows container provider: how many goroutines a prefetch starts *)
Section Goroutines.
Import GoInt Go Windows Observed Samples.

Lemma chunk_starts_app (t1 t2 : trace) :
  chunk_starts (t1 ++ t2) = chunk_starts t1 ++ chunk_starts t2.
Proof. apply omap_app. Qed.

Lemma inspect_bundle_starts_none (env : Env) (d : DockerUtil) (c : Container) :
  chunk_starts (snd (inspect_bundle env d c)) = [].
Proof.
  unfold inspect_bundle, fillContainerDetails.
  destruct (Inspect d (ID c)) as [cjson|err];
    try destruct (ParseRFC3339 env (State_StartedAt cjson)) as [unix|perr];
    destruct (GetContainerStats d (ID c)) as [[stats|] [serr|]]; reflexivity.
Qed.

Lemma for_range_starts_none (env : Env) (d : DockerUtil) (xs : list Container)
  (st : fetch) :
  chunk_starts (snd (for_range (fetch_container env d) xs st)) = [].
Proof.
  revert st. induction xs as [|c xs IH]; intros st; [done|].
  rewrite for_range_cons. cbn [snd]. rewrite chunk_starts_app, IH.
  rewrite fetch_container_unfold. cbn [snd].
  by rewrite chunk_starts_app, inspect_bundle_starts_none.
Qed.

Lemma fetch_chunk_starts (env : Env) (d : DockerUtil) (rawContainers : list Container)
  (chunkSize start : Z) (st : fetch) :
  chunk_starts (snd (fetch_chunk env d rawContainers chunkSize start st)) = [start].
Proof.
  rewrite fetch_chunk_unfold. cbn [snd]. rewrite app_nil_r.
  change (?e :: ?t) with ([e] ++ t). rewrite chunk_starts_app, for_range_starts_none.
  reflexivity.
Qed.

(** The chunks started from index [i] on: each takes [chunkSize] containers,
    the last one what is left. *)
Lemma fetch_loop_starts (env : Env) (d : DockerUtil) (rawContainers : list Container)
  (chunkSize : Z) (fuel : nat) (i : Z) (st : fetch) :
  0 ≤ i → 1 ≤ chunkSize →
  Z.of_nat (length rawContainers) - i ≤ Z.of_nat fuel →
  ∃ (st' : fetch) (t : trace),
    fetch_loop fuel env d rawContainers chunkSize i st = Some (st', t)
    ∧ let n := Z.of_nat (length (chunk_starts t)) in
      let left := Z.max 0 (Z.of_nat (length rawContainers) - i) in
      left ≤ n * chunkSize < left + chunkSize.
Proof.
  revert i st. induction fuel as [|fuel IH]; intros i st Hi Hcs Hfuel.
  - exists st, []. cbn [fetch_loop].
    destruct (Z.ltb_spec i (Z.of_nat (length rawContainers))); [lia|].
    split; [done|]. cbn. lia.
  - cbn [fetch_loop].
    destruct (Z.ltb_spec i (Z.of_nat (length rawContainers))) as [Hlt|Hge].
    + pose proof (fetch_chunk_starts env d rawContainers chunkSize i st) as Hone.
      destruct (fetch_chunk env d rawContainers chunkSize i st) as [st1 t1].
      cbn [snd] in Hone.
      destruct (IH (i + chunkSize) st1) as (st2 & t2 & -> & Hrest); [lia..|].
      exists st2, (t1 ++ t2). split; [done|].
      cbn zeta in *. rewrite chunk_starts_app, Hone, length_app. cbn [length].
      rewrite Nat2Z.inj_add, Z.mul_add_distr_r. change (Z.of_nat 1) with 1.
      assert (Z.of_nat (length (chunk_starts t2)) = 0
              ∨ chunkSize ≤ Z.of_nat (length (chunk_starts t2)) * chunkSize) by nia.
      lia.
    + exists st, []. split; [done|]. cbn. lia.
Qed.

(** X15: a successful [Prefetch] starts no goroutine for an empty list, one
    goroutine for 1 to 15 containers, and from 16 containers on between 8 and
    12 goroutines, however many containers there are. *)
Theorem prefetch_goroutine_count (env : Env) (mp : provider) (d : DockerUtil)
  (rawContainers : list Container) :
  GetDockerUtil env = inl d → RawContainerList d = inl rawContainers →
  ∃ (mp' : provider) (t : trace),
    Prefetch env mp = Some ((mp', None), t)
    ∧ let goroutines := length (chunk_starts t) in
      let len := length rawContainers in
      (len = 0 → goroutines = 0)%nat
      ∧ (1 ≤ len < 16 → goroutines = 1)%nat
      ∧ (16 ≤ len → 8 ≤ goroutines ≤ 12)%nat.
Proof.
  intros Hd Hraw. unfold Prefetch. rewrite Hd, Hraw.
  set (len := Z.of_nat (length rawContainers)).
  set (st := {| fetch_agentCID := agentCID mp; fetch_aliased := false;
                fetch_containers := ∅ |}).
  destruct (decide (length rawContainers = 0%nat)) as [Hempty|Hne].
  - rewrite fetch_loop_done by lia.
    eexists _, _. split; [reflexivity|]. cbn. lia.
  - destruct (fetch_loop_starts env d rawContainers (chunk_size len)
                (length rawContainers) 0 st) as (st' & t' & -> & Hn);
      [lia|apply chunk_size_positive; lia|lia|].
    eexists _, _. split; [reflexivity|].
    cbn zeta in *. cbn [snd bind log ret]. rewrite app_nil_r.
    change (chunk_starts ([?a] ++ [?b] ++ t')) with (chunk_starts t').
    set (n := length (chunk_starts t')) in *.
    rewrite Z.sub_0_r, Z.max_r in Hn by lia. fold len in Hn.
    split; [lia|]. split.
    + intros Hsmall. rewrite chunk_size_small in Hn by lia.
      assert (n = 0 ∨ n = 1 ∨ 2 ≤ n)%nat as [->|[->|Hn2]] by lia; [lia|done|nia].
    + intros Hbig. unfold chunk_size in Hn.
      assert (Hq : 8 * (len `quot` 8) ≤ len < 8 * (len `quot` 8) + 8).
      { rewrite Z.quot_div_nonneg by lia.
        pose proof (Z.div_mod len 8). pose proof (Z.mod_pos_bound len 8). lia. }
      destruct (Z.leb_spec (len `quot` 8) 1); [lia|]. nia.
Qed.

Lemma prefetch_goroutine_count_witness :
  ∃ (mp' : provider) (t : trace),
    Prefetch seventeen_env new_provider = Some ((mp', None), t)
    ∧ (8 ≤ length (chunk_starts t) ≤ 12)%nat.
Proof.
  destruct (prefetch_goroutine_count seventeen_env new_provider _ _ eq_refl eq_refl)
    as (mp' & t & Hrun & _ & _ & Hbig).
  exists mp', t. split; [exact Hrun|]. apply Hbig. simpl. lia.
Defined.

Example prefetch_seventeen_goroutines :
  (λ r, chunk_starts (snd r)) <$> Prefetch seventeen_env new_provider
  = Some [0; 2; 4; 6; 8; 10; 12; 14; 16].
Proof. vm_compute. reflexivity. Qed.

End Goroutines.

(** ** The Windows container provider: network destinations *)
Section Destinations.
Import GoInt Go Windows WindowsNet Samples.

Lemma destinations_loop_unfold (env : IpEnv) (interfaceTable : gmap Z MibIfRow)
  (rows : list MIB_IPFORWARDROW) (acc : list NetworkDestination) :
  foldl (λ netDestinations row,
           netDestinations ++ [route_destination env interfaceTable row]) acc rows
  = acc ++ (route_destination env interfaceTable <$> rows).
Proof.
  revert acc. induction rows as [|row rows IH]; intros acc; cbn.
  - by rewrite app_nil_r.
  - rewrite IH. by rewrite <- app_assoc.
Qed.

(** X16: [DetectNetworkDestinations] returns the error of the route table
    when that cannot be read and the error of the interface table when only
    that cannot be read.  Otherwise it returns, with a [nil] error, one
    destination per route, in the order of the table, with the route's
    destination and mask unchanged; a route through an interface that the
    interface table does not hold gets the name of the zero row instead of an
    error. *)
Theorem network_destinations_per_route (env : IpEnv) (mp : provider) (pid : Z) :
  (∀ err, GetIPv4RouteTable env = inr err →
     DetectNetworkDestinations env mp pid = (None, Some err))
  ∧ (∀ routingTable err,
       GetIPv4RouteTable env = inl routingTable → GetIFTable env = inr err →
       DetectNetworkDestinations env mp pid = (None, Some err))
  ∧ (∀ routingTable interfaceTable,
       GetIPv4RouteTable env = inl routingTable →
       GetIFTable env = inl interfaceTable →
       (∀ row, row ∈ routingTable →
          0 ≤ DwForwardDest row < 2 ^ 32 ∧ 0 ≤ DwForwardMask row < 2 ^ 32) →
       ∃ netDestinations,
         DetectNetworkDestinations env mp pid = (Some netDestinations, None)
         ∧ length netDestinations = length routingTable
         ∧ ∀ (i : nat) row, routingTable !! i = Some row →
             ∃ dest, netDestinations !! i = Some dest
               ∧ Subnet dest = DwForwardDest row
               ∧ Mask dest = DwForwardMask row
               ∧ Interface dest
                 = UTF16ToString env
                     (match interfaceTable !! DwForwardIfIndex row with
                      | Some itf => WszName itf
                      | None => replicate 256 0
                      end)).
Proof.
  unfold DetectNetworkDestinations. split_and!.
  - by intros err ->.
  - by intros routingTable err -> ->.
  - intros routingTable interfaceTable -> -> Hrange.
    rewrite destinations_loop_unfold. cbn [app].
    eexists. split; [reflexivity|]. split; [by rewrite length_fmap|].
    intros i row Hrow. eexists. split; [by rewrite list_lookup_fmap, Hrow|].
    destruct (Hrange row) as [Hdest Hmask]; [by eapply list_elem_of_lookup_2|].
    unfold route_destination. cbn [Subnet Mask Interface].
    rewrite !uint64_wrap_id by (unfold is_uint64, max_uint64; lia).
    split; [done|]. split; [done|].
    by destruct (interfaceTable !! DwForwardIfIndex row).
Qed.

Lemma network_destinations_per_route_witness :
  ∃ netDestinations,
    DetectNetworkDestinations ip_env new_provider 4242 = (Some netDestinations, None)
    ∧ length netDestinations = 2%nat.
Proof.
  destruct (network_destinations_per_route ip_env new_provider 4242) as (_ & _ & H).
  destruct (H _ _ eq_refl eq_refl) as (dests & Hrun & Hlen & _).
  - intros row Hrow. unfold ip_env in Hrow.
    repeat (apply elem_of_cons in Hrow as [->|Hrow]; [cbn; lia|]).
    by apply not_elem_of_nil in Hrow.
  - by exists dests.
Defined.

Example network_destinations_run :
  DetectNetworkDestinations ip_env new_provider 4242
  = (Some [ {| Interface := "eth"; Subnet := 0; Mask := 0 |};
            {| Interface := ""; Subnet := 4294967295; Mask := 4294967295 |} ],
     None).
Proof. vm_compute. reflexivity. Qed.

End Destinations.
